(** * The cuTT Python binding: plan lifecycle of class [cuTT]

    A shallow embedding of [src/python/cutt.cpp]: the result-code printer
    [cuttErrorString], the two constructors of class [cuTT], its destructor
    and its [execute] method, run against a transpose engine that is only
    known through the calls made to it. *)

From Stdlib Require Import ZArith List String Bool Lia.
From Stdlib Require Import Floats.PrimFloat.
Import ListNotations.

Local Open Scope Z_scope.

(** ** Result codes *)

(** Modelled from the spec: the enumeration [cuttResult] of [cutt.h], a header
    that is not among the sources.  A value of the enumeration is an integer;
    the six enumerators are numbered in the order the spec lists them, as C
    numbers an enumeration without initialisers.  Only their being pairwise
    distinct matters below. *)
Definition cuttResult := Z.

Definition CUTT_SUCCESS : cuttResult := 0.
Definition CUTT_INVALID_PLAN : cuttResult := 1.
Definition CUTT_INVALID_PARAMETER : cuttResult := 2.
Definition CUTT_INVALID_DEVICE : cuttResult := 3.
Definition CUTT_INTERNAL_ERROR : cuttResult := 4.
Definition CUTT_UNDEFINED_ERROR : cuttResult := 5.

(** [cuttErrorString]: a [switch] over the six enumerators, each returning its
    text, and the fallback text after the [switch]. *)
Definition cuttErrorString (result : cuttResult) : string :=
  let cuttSuccess := "Success"%string in
  let cuttInvalidPlan := "Invalid plan handle"%string in
  let cuttInvalidParameter := "Invalid input parameter"%string in
  let cuttInvalidDevice :=
    "Execution tried on device different than where plan was created"%string in
  let cuttInternalError := "Internal error"%string in
  let cuttUndefinedError := "Undefined error"%string in
  let cuttUnknownError := "Unknown error"%string in
  if result =? CUTT_SUCCESS then cuttSuccess
  else if result =? CUTT_INVALID_PLAN then cuttInvalidPlan
  else if result =? CUTT_INVALID_PARAMETER then cuttInvalidParameter
  else if result =? CUTT_INVALID_DEVICE then cuttInvalidDevice
  else if result =? CUTT_INTERNAL_ERROR then cuttInternalError
  else if result =? CUTT_UNDEFINED_ERROR then cuttUndefinedError
  else cuttUnknownError.

(** ** Python objects handed over by the caller *)

(** The three objects the binding looks up in [pycuda] and tests the caller's
    arguments against.  The measured constructor tests its arrays against
    [pycuda.gpuarray], which is the module; [execute] tests them against
    [pycuda.gpuarray.GPUArray], the class in that module; streams are tested
    against the class [pycuda.driver.Stream]. *)
Inductive pyclass : Type :=
| pycuda_gpuarray
| pycuda_gpuarray_GPUArray
| pycuda_driver_Stream.

(** A [numpy] dtype object: [dtype::is] compares object identity, [py::str]
    prints it. *)
Record pydtype : Type := {
  dtype_id : Z;
  dtype_str : string
}.

Definition dtype_is (a b : pydtype) : bool := dtype_id a =? dtype_id b.

(** What the binding observes of a [py::object]: whether it is [None], its
    [py::str], the answer of [py::isinstance] for each class, the attributes
    [handle_int], [dtype], [ptr] and [itemsize], and the value [cast<double>]
    yields ([None] when the cast throws).  The integer attributes are held as
    the numbers their casts ([cast<intptr_t>], [cast<size_t>]) yield: an
    object whose pointer or element size does not convert is not described
    here. *)
Record pyobject : Type := {
  is_none : bool;
  py_str : string;
  py_isinstance : pyclass -> bool;
  attr_handle_int : Z;
  attr_dtype : pydtype;
  attr_ptr : Z;
  attr_itemsize : Z;
  cast_double : option float
}.

(** ** The transpose engine, seen through its calls *)

Definition cuttHandle := Z.
Definition cudaStream_t := Z.

(** One call into the engine, with the arguments it was given.  A pointer to a
    [double] is recorded as the value it points to, [NULL] as [None]; the
    untyped pointers of the measured constructor are recorded as addresses. *)
Inductive engine_call : Type :=
| call_cuttInitialize
| call_cuttPlan (rank : Z) (dim permutation : list Z)
    (sizeofType : Z) (stream : cudaStream_t)
| call_cuttPlanMeasure (rank : Z) (dim permutation : list Z)
    (sizeofType : Z) (stream : cudaStream_t)
    (idata odata : Z) (alpha beta : Z)
| call_cuttExecute (plan : cuttHandle) (idata odata : Z)
    (alpha beta : option float)
| call_cuttDestroy (plan : cuttHandle).

(** Modelled from the spec: the engine behind [cutt.h], which is not among the
    sources.  Each planning operation answers with a result code and, when it
    writes through its handle pointer, the handle written; [cuttExecute]
    answers with a result code.  The first argument is the list of calls the
    engine has received before, so an answer may depend on all that happened
    earlier.  [cuttInitialize] and [cuttDestroy] return nothing the binding
    reads. *)
Record Engine : Type := {
  cuttPlan : list engine_call -> Z -> list Z -> list Z -> Z -> cudaStream_t ->
             option cuttHandle * cuttResult;
  cuttPlanMeasure : list engine_call -> Z -> list Z -> list Z -> Z ->
                    cudaStream_t -> Z -> Z -> Z -> Z ->
                    option cuttHandle * cuttResult;
  cuttExecute : list engine_call -> cuttHandle -> Z -> Z ->
                option float -> option float -> cuttResult
}.

(** The state outside any one object: the [std::once_flag] [cuttInitialized]
    and the calls the engine has received so far, oldest first. *)
Record world : Type := {
  cuttInitialized : bool;
  calls : list engine_call
}.

Definition initial_world : world :=
  {| cuttInitialized := false; calls := [] |}.

Definition record_call (w : world) (c : engine_call) : world :=
  {| cuttInitialized := cuttInitialized w; calls := calls w ++ [c] |}.

(** [std::call_once(cuttInitialized, [](){ cuttInitialize(); })] *)
Definition call_once (w : world) : world :=
  if cuttInitialized w then w
  else {| cuttInitialized := true; calls := calls w ++ [call_cuttInitialize] |}.

(** ** Exceptions *)

(** [error_already_set] is how a Python exception raised inside a pybind11
    call comes out; it carries the name of the Python exception type. *)
Inductive exception : Type :=
| invalid_argument (what : string)
| cast_error
| error_already_set (pytype : string).

Inductive outcome (A : Type) : Type :=
| Returns (a : A)
| Throws (e : exception).

Arguments Returns {A} a.
Arguments Throws {A} e.

(** Whether the looked-up object is a class: [pycuda.gpuarray] is a module. *)
Definition is_type (cls : pyclass) : bool :=
  match cls with
  | pycuda_gpuarray => false
  | pycuda_gpuarray_GPUArray => true
  | pycuda_driver_Stream => true
  end.

(** [py::isinstance(obj, cls)] hands both to Python's instance test, which
    raises [TypeError] when its second argument is not a class (nor a tuple
    of classes); pybind11 throws that as [error_already_set].  Against a
    class the answer is the object's. *)
Definition isinstance (obj : pyobject) (cls : pyclass) : outcome bool :=
  if is_type cls then Returns (py_isinstance obj cls)
  else Throws (error_already_set "TypeError").

(** ** Class [cuTT] *)

Record cuTT : Type := {
  plan : cuttHandle;
  initStatus : cuttResult;
  planInitialized : bool;
  rank : Z;
  dim : list Z;
  permutation : list Z;
  stream : cudaStream_t
}.

(** [plan] and [initStatus] have no initialiser: until they are assigned they
    hold what the storage of the object held before. *)
Record storage : Type := {
  mem_plan : cuttHandle;
  mem_initStatus : cuttResult
}.

(** The handle after a planning call: the one the engine wrote, else the one
    that was there. *)
Definition written (h : option cuttHandle) (old : cuttHandle) : cuttHandle :=
  match h with
  | Some h' => h'
  | None => old
  end.

Section WithEngine.

Variable E : Engine.

(** The block both constructors run on their [stream_] argument: [None] is
    stream 0, a [pycuda.driver.Stream] gives its [handle_int], anything else
    is refused. *)
Definition stream_of (stream_ : pyobject) : outcome cudaStream_t :=
  if is_none stream_ then Returns 0
  else if negb (py_isinstance stream_ pycuda_driver_Stream) then
    Throws (invalid_argument
      ("Stream argument must be a pycuda.driver.stream, got: "
         ++ py_str stream_)%string)
  else Returns (attr_handle_int stream_).

(** The constructor that defers planning:
    [cuTT(rank_, dim_, permutation_, stream_)]. *)
Definition cuTT_ctor (mem : storage) (w : world)
    (rank_ : Z) (dim_ permutation_ : list Z) (stream_ : pyobject)
  : world * outcome cuTT :=
  let w := call_once w in
  match stream_of stream_ with
  | Throws e => (w, Throws e)
  | Returns stream' =>
    (w, Returns {| plan := mem_plan mem; initStatus := mem_initStatus mem;
                   planInitialized := false;
                   rank := rank_; dim := dim_; permutation := permutation_;
                   stream := stream' |})
  end.

(** The constructor that plans by measuring:
    [cuTT(rank_, dim_, permutation_, stream_, idata, odata, alpha, beta)]. *)
Definition cuTT_ctor_measure (mem : storage) (w : world)
    (rank_ : Z) (dim_ permutation_ : list Z) (stream_ : pyobject)
    (idata odata : pyobject) (alpha beta : Z)
  : world * outcome cuTT :=
  let w := call_once w in
  match isinstance idata pycuda_gpuarray with
  | Throws e => (w, Throws e)
  | Returns idata_is_array =>
  if negb idata_is_array then
    (w, Throws (invalid_argument
         ("Input array must be a pycuda.gpuarray, got: " ++ py_str idata)%string))
  else
  match isinstance odata pycuda_gpuarray with
  | Throws e => (w, Throws e)
  | Returns odata_is_array =>
  if negb odata_is_array then
    (w, Throws (invalid_argument
         ("Output array must be a pycuda.gpuarray, got: " ++ py_str odata)%string))
  else
    match stream_of stream_ with
    | Throws e => (w, Throws e)
    | Returns stream' =>
      if negb (dtype_is (attr_dtype idata) (attr_dtype odata)) then
        (w, Throws (invalid_argument
             "Input and output array must have the same type"%string))
      else
        let igpuarray := attr_ptr idata in
        let ogpuarray := attr_ptr odata in
        let sizeofType := attr_itemsize idata in
        let '(h, status) :=
          cuttPlanMeasure E (calls w) rank_ dim_ permutation_ sizeofType stream'
                          igpuarray ogpuarray alpha beta in
        let w := record_call w
                   (call_cuttPlanMeasure rank_ dim_ permutation_ sizeofType
                      stream' igpuarray ogpuarray alpha beta) in
        (w, Returns {| plan := written h (mem_plan mem); initStatus := status;
                       planInitialized := true;
                       rank := rank_; dim := dim_; permutation := permutation_;
                       stream := stream' |})
    end
  end
  end.

(** The destructor [~cuTT()]. *)
Definition cuTT_dtor (self : cuTT) (w : world) : world :=
  record_call w (call_cuttDestroy (plan self)).

(** A scalar argument of [execute]: a null pointer when the Python object is
    [None], else a pointer to the [double] it casts to. *)
Definition scalar_pointer (py : pyobject) : outcome (option float) :=
  if negb (is_none py) then
    match cast_double py with
    | Some v => Returns (Some v)
    | None => Throws cast_error
    end
  else Returns None.

(** [void execute(idata, odata, pyalpha, pybeta)]: the object and the world
    after the call, and how the call ended.  Its array tests are against the
    class [GPUArray], where [py::isinstance] gives the object's answer.  The
    pointers and the element size of a pair that passed the tests are used as
    the numbers their casts yield. *)
Definition execute (self : cuTT) (w : world)
    (idata odata pyalpha pybeta : pyobject)
  : cuTT * world * outcome unit :=
  if negb (py_isinstance idata pycuda_gpuarray_GPUArray) then
    (self, w, Throws (invalid_argument
       ("Input array must be a pycuda.gpuarray, got: " ++ py_str idata)%string))
  else if negb (py_isinstance odata pycuda_gpuarray_GPUArray) then
    (self, w, Throws (invalid_argument
       ("Output array must be a pycuda.gpuarray, got: " ++ py_str odata)%string))
  else if negb (dtype_is (attr_dtype idata) (attr_dtype odata)) then
    (self, w, Throws (invalid_argument
       ("Input and output array must have the same type, got: "
          ++ dtype_str (attr_dtype idata) ++ " and "
          ++ dtype_str (attr_dtype odata))%string))
  else
    let igpuarray := attr_ptr idata in
    let ogpuarray := attr_ptr odata in
    let sizeofType := attr_itemsize idata in
    let '(self, w) :=
      if negb (planInitialized self) then
        let '(h, status) :=
          cuttPlan E (calls w) (rank self) (dim self) (permutation self)
                   sizeofType (stream self) in
        ({| plan := written h (plan self); initStatus := status;
            planInitialized := true;
            rank := rank self; dim := dim self;
            permutation := permutation self; stream := stream self |},
         record_call w (call_cuttPlan (rank self) (dim self) (permutation self)
                                      sizeofType (stream self)))
      else (self, w) in
    if negb (initStatus self =? CUTT_SUCCESS) then
      (self, w, Throws (invalid_argument
         ("cuTT error: " ++ cuttErrorString (initStatus self))%string))
    else
      match scalar_pointer pyalpha with
      | Throws e => (self, w, Throws e)
      | Returns alpha =>
        match scalar_pointer pybeta with
        | Throws e => (self, w, Throws e)
        | Returns beta =>
          let status := cuttExecute E (calls w) (plan self)
                                    igpuarray ogpuarray alpha beta in
          let w := record_call w (call_cuttExecute (plan self)
                                    igpuarray ogpuarray alpha beta) in
          if negb (status =? CUTT_SUCCESS) then
            (self, w, Throws (invalid_argument
               ("cuTT error: " ++ cuttErrorString status)%string))
          else (self, w, Returns tt)
        end
      end.

End WithEngine.

(** ** A Python program driving the binding *)

(** What a caller can do through the class registered by [cutt_init_python]:
    construct an object with either [py::init], call [execute] on an object,
    or drop an object, which runs its destructor.  Objects are numbered in
    the order they were constructed. *)
Inductive api_call : Type :=
| py_init (mem : storage) (rank_ : Z) (dim_ permutation_ : list Z)
    (stream_ : pyobject)
| py_init_measure (mem : storage) (rank_ : Z) (dim_ permutation_ : list Z)
    (stream_ idata odata : pyobject) (alpha beta : Z)
| py_execute (self : nat) (idata odata pyalpha pybeta : pyobject)
| py_del (self : nat).

Record process : Type := {
  proc_world : world;
  objects : list (option cuTT)
}.

Definition initial_process : process :=
  {| proc_world := initial_world; objects := [] |}.

Fixpoint replace_nth {A : Type} (n : nat) (x : A) (l : list A) : list A :=
  match l, n with
  | [], _ => []
  | _ :: t, O => x :: t
  | y :: t, S n' => y :: replace_nth n' x t
  end.

(** A constructor that throws leaves no object behind (and its destructor
    does not run); a call on an object that does not exist, or no longer
    exists, does nothing. *)
Definition step (E : Engine) (p : process) (c : api_call) : process :=
  match c with
  | py_init mem rank_ dim_ permutation_ stream_ =>
    let '(w, o) := cuTT_ctor mem (proc_world p) rank_ dim_ permutation_ stream_ in
    {| proc_world := w;
       objects := match o with
                  | Returns self => objects p ++ [Some self]
                  | Throws _ => objects p
                  end |}
  | py_init_measure mem rank_ dim_ permutation_ stream_ idata odata alpha beta =>
    let '(w, o) := cuTT_ctor_measure E mem (proc_world p) rank_ dim_ permutation_
                     stream_ idata odata alpha beta in
    {| proc_world := w;
       objects := match o with
                  | Returns self => objects p ++ [Some self]
                  | Throws _ => objects p
                  end |}
  | py_execute i idata odata pyalpha pybeta =>
    match nth_error (objects p) i with
    | Some (Some self) =>
      let '(self', w, _) := execute E self (proc_world p)
                              idata odata pyalpha pybeta in
      {| proc_world := w; objects := replace_nth i (Some self') (objects p) |}
    | _ => p
    end
  | py_del i =>
    match nth_error (objects p) i with
    | Some (Some self) =>
      {| proc_world := cuTT_dtor self (proc_world p);
         objects := replace_nth i None (objects p) |}
    | _ => p
    end
  end.

Definition run (E : Engine) (p : process) (cs : list api_call) : process :=
  fold_left (step E) cs p.

Definition is_construction (c : api_call) : bool :=
  match c with
  | py_init _ _ _ _ _ => true
  | py_init_measure _ _ _ _ _ _ _ _ _ => true
  | _ => false
  end.

(** The arguments of one [execute] call, and a run of such calls on one
    object. *)
Record exec_args : Type := {
  arg_idata : pyobject;
  arg_odata : pyobject;
  arg_pyalpha : pyobject;
  arg_pybeta : pyobject
}.

Fixpoint execute_all (E : Engine) (self : cuTT) (w : world)
    (l : list exec_args) : cuTT * world :=
  match l with
  | [] => (self, w)
  | a :: l' =>
    let '(self', w', _) :=
      execute E self w (arg_idata a) (arg_odata a) (arg_pyalpha a) (arg_pybeta a) in
    execute_all E self' w' l'
  end.

(** ** Reading the list of engine calls *)

Definition is_initialize (c : engine_call) : bool :=
  match c with call_cuttInitialize => true | _ => false end.

Definition is_plan (c : engine_call) : bool :=
  match c with call_cuttPlan _ _ _ _ _ => true | _ => false end.

Definition is_planning (c : engine_call) : bool :=
  match c with
  | call_cuttPlan _ _ _ _ _ => true
  | call_cuttPlanMeasure _ _ _ _ _ _ _ _ _ => true
  | _ => false
  end.

Definition is_destroy (c : engine_call) : bool :=
  match c with call_cuttDestroy _ => true | _ => false end.

Definition count (f : engine_call -> bool) (l : list engine_call) : nat :=
  List.length (filter f l).

(** The once-flag is set, the first engine call was [cuttInitialize], and no
    later one is. *)
Definition started (w : world) : Prop :=
  cuttInitialized w = true
  /\ exists rest,
       calls w = call_cuttInitialize :: rest
       /\ count is_initialize rest = 0%nat.

(** What holds of a process all along: either nothing has happened yet, or
    the engine was started as above. *)
Definition process_inv (p : process) : Prop :=
  (cuttInitialized (proc_world p) = false
   /\ calls (proc_world p) = []
   /\ objects p = [])
  \/ started (proc_world p).

(** The buffer pair passes the checks [execute] makes before it touches the
    plan. *)
Definition valid_pair (idata odata : pyobject) : bool :=
  py_isinstance idata pycuda_gpuarray_GPUArray
  && py_isinstance odata pycuda_gpuarray_GPUArray
  && dtype_is (attr_dtype idata) (attr_dtype odata).

(** The coefficient [execute] hands to the engine for a scalar argument. *)
Definition forwarded (py : pyobject) : option float :=
  if is_none py then None else cast_double py.

(** [text] occurs somewhere in [msg]. *)
Definition contains (text msg : string) : bool :=
  match String.index 0 text msg with
  | Some _ => true
  | None => false
  end.

(** ** The spec's invariant of a transpose request *)

(** The invariant the spec gives for a TransposeSpec, in the spec's words:
    the rank is positive, [dims] and [permutation] have [rank] entries, and
    [permutation] is a bijection on [0, rank).  Nothing in the binding
    computes it; it is here to say which requests the constructor is claimed
    to refuse. *)
Definition is_bijection (rank_ : Z) (permutation_ : list Z) : bool :=
  forallb (fun x => (0 <=? x) && (x <? rank_)) permutation_
  && forallb (fun i => existsb (Z.eqb i) permutation_)
             (map Z.of_nat (seq 0 (Z.to_nat rank_))).

Definition TransposeSpec_valid (rank_ : Z) (dim_ permutation_ : list Z) : bool :=
  (1 <=? rank_)
  && (Z.of_nat (List.length dim_) =? rank_)
  && (Z.of_nat (List.length permutation_) =? rank_)
  && is_bijection rank_ permutation_.

(** ** Sample callers: objects, storage and engines to run the code on *)

Definition None_ : pyobject :=
  {| is_none := true; py_str := "None";
     py_isinstance := fun _ => false;
     attr_handle_int := 0;
     attr_dtype := {| dtype_id := 0; dtype_str := "" |};
     attr_ptr := 0; attr_itemsize := 0;
     cast_double := None |}.

Definition float32 : pydtype := {| dtype_id := 1001; dtype_str := "float32" |}.
Definition float64 : pydtype := {| dtype_id := 1002; dtype_str := "float64" |}.

(** A device array, an instance of [GPUArray]. *)
Definition sample_array (dt : pydtype) (ptr_ itemsize_ : Z) : pyobject :=
  {| is_none := false; py_str := "<GPUArray>";
     py_isinstance := fun c => match c with
                               | pycuda_gpuarray_GPUArray => true
                               | _ => false
                               end;
     attr_handle_int := 0;
     attr_dtype := dt;
     attr_ptr := ptr_; attr_itemsize := itemsize_;
     cast_double := None |}.

(** A Python [float]. *)
Definition sample_float (v : float) (shown : string) : pyobject :=
  {| is_none := false; py_str := shown;
     py_isinstance := fun _ => false;
     attr_handle_int := 0;
     attr_dtype := {| dtype_id := 0; dtype_str := "" |};
     attr_ptr := 0; attr_itemsize := 0;
     cast_double := Some v |}.

(** A Python [str], which is neither an array nor a number. *)
Definition sample_text : pyobject :=
  {| is_none := false; py_str := "abc";
     py_isinstance := fun _ => false;
     attr_handle_int := 0;
     attr_dtype := {| dtype_id := 0; dtype_str := "" |};
     attr_ptr := 0; attr_itemsize := 0;
     cast_double := None |}.

Definition sample_storage : storage :=
  {| mem_plan := 48879; mem_initStatus := 57005 |}.

(** An engine whose planning operations always give [planned] and whose
    [cuttExecute] always gives [executed]. *)
Definition stub_engine (planned : option cuttHandle * cuttResult)
    (executed : cuttResult) : Engine :=
  {| cuttPlan := fun _ _ _ _ _ _ => planned;
     cuttPlanMeasure := fun _ _ _ _ _ _ _ _ _ _ => planned;
     cuttExecute := fun _ _ _ _ _ _ => executed |}.

Definition sample_in : pyobject := sample_array float32 4096 4.
Definition sample_out : pyobject := sample_array float32 8192 4.
Definition sample_out64 : pyobject := sample_array float64 8192 8.

(** An object whose plan, handle 7, was made with success. *)
Definition sample_planned : cuTT :=
  {| plan := 7; initStatus := CUTT_SUCCESS; planInitialized := true;
     rank := 3; dim := [4; 6; 8]; permutation := [2; 0; 1]; stream := 0 |}.

(** An object as the deferring constructor leaves it. *)
Definition sample_unplanned : cuTT :=
  {| plan := mem_plan sample_storage;
     initStatus := mem_initStatus sample_storage;
     planInitialized := false;
     rank := 3; dim := [4; 6; 8]; permutation := [2; 0; 1]; stream := 0 |}.

(** A first call with a valid pair of 4-byte arrays, then a call with
    mismatched arrays and a call with a valid pair of 8-byte arrays. *)
Definition sample_call : exec_args :=
  {| arg_idata := sample_in; arg_odata := sample_out;
     arg_pyalpha := None_; arg_pybeta := None_ |}.

Definition sample_later_calls : list exec_args :=
  [ {| arg_idata := sample_in; arg_odata := sample_out64;
       arg_pyalpha := None_; arg_pybeta := None_ |};
    {| arg_idata := sample_array float64 4096 8; arg_odata := sample_out64;
       arg_pyalpha := None_; arg_pybeta := None_ |} ].

(** ** Further readings of the code *)

Definition is_execute (c : engine_call) : bool :=
  match c with call_cuttExecute _ _ _ _ _ => true | _ => false end.

(** The status [execute] tests at [initStatus != CUTT_SUCCESS]: the stored one
    when the object is planned, else the one the planning call of this very
    [execute] gives. *)
Definition planning_status (E : Engine) (self : cuTT) (w : world)
    (idata : pyobject) : cuttResult :=
  if planInitialized self then initStatus self
  else snd (cuttPlan E (calls w) (rank self) (dim self) (permutation self)
              (attr_itemsize idata) (stream self)).

(** The scalar argument is [None] or casts to a [double]. *)
Definition converts (py : pyobject) : bool :=
  is_none py || match cast_double py with Some _ => true | None => false end.

Definition is_plan_measure (c : engine_call) : bool :=
  match c with
  | call_cuttPlanMeasure _ _ _ _ _ _ _ _ _ => true
  | _ => false
  end.

(** The stream a constructor stores for an accepted stream argument. *)
Definition stream_handle (stream_ : pyobject) : cudaStream_t :=
  if is_none stream_ then 0 else attr_handle_int stream_.

(** Objects of a process that are alive and not yet planned, and objects that
    were dropped. *)
Definition is_unplanned (o : option cuTT) : bool :=
  match o with
  | Some self => negb (planInitialized self)
  | None => false
  end.

Definition is_dropped (o : option cuTT) : bool :=
  match o with
  | Some _ => false
  | None => true
  end.

Definition tally (f : option cuTT -> bool) (l : list (option cuTT)) : nat :=
  List.length (filter f l).

(** Reading a list of engine calls from the oldest on: no [cuttExecute] call
    comes before the first planning call.  [seen] says whether a planning call
    has been met already. *)
Fixpoint planned_before_executed (seen : bool) (l : list engine_call) : bool :=
  match l with
  | [] => true
  | c :: l' =>
    if is_execute c then seen && planned_before_executed seen l'
    else planned_before_executed (seen || is_planning c) l'
  end.

(** A planned object is accounted for in a world when the engine has received
    a planning call. *)
Definition accounted (w : world) (o : option cuTT) : Prop :=
  match o with
  | Some self =>
    planInitialized self = true -> existsb is_planning (calls w) = true
  | None => True
  end.

(** The same Python object reporting another [itemsize]. *)
Definition with_itemsize (py : pyobject) (n : Z) : pyobject :=
  {| is_none := is_none py; py_str := py_str py;
     py_isinstance := py_isinstance py;
     attr_handle_int := attr_handle_int py;
     attr_dtype := attr_dtype py;
     attr_ptr := attr_ptr py; attr_itemsize := n;
     cast_double := cast_double py |}.

(** A Python [Stream] object with the given handle. *)
Definition sample_stream (h : Z) : pyobject :=
  {| is_none := false; py_str := "<Stream>";
     py_isinstance := fun c => match c with
                               | pycuda_driver_Stream => true
                               | _ => false
                               end;
     attr_handle_int := h;
     attr_dtype := {| dtype_id := 0; dtype_str := "" |};
     attr_ptr := 0; attr_itemsize := 0;
     cast_double := None |}.

(** * Properties *)

(** ** The result printer *)

(** C9: [cuttErrorString] is a total function of the result code: each of the
    six enumerators Success, InvalidPlan, InvalidParameter, InvalidDevice,
    InternalError and UndefinedError gives its own fixed text, and every
    other value gives the fallback text "Unknown error". *)
Theorem cuttErrorString_table :
  cuttErrorString CUTT_SUCCESS = "Success"%string
  /\ cuttErrorString CUTT_INVALID_PLAN = "Invalid plan handle"%string
  /\ cuttErrorString CUTT_INVALID_PARAMETER = "Invalid input parameter"%string
  /\ cuttErrorString CUTT_INVALID_DEVICE
     = "Execution tried on device different than where plan was created"%string
  /\ cuttErrorString CUTT_INTERNAL_ERROR = "Internal error"%string
  /\ cuttErrorString CUTT_UNDEFINED_ERROR = "Undefined error"%string
  /\ forall result : cuttResult,
       result <> CUTT_SUCCESS -> result <> CUTT_INVALID_PLAN ->
       result <> CUTT_INVALID_PARAMETER -> result <> CUTT_INVALID_DEVICE ->
       result <> CUTT_INTERNAL_ERROR -> result <> CUTT_UNDEFINED_ERROR ->
       cuttErrorString result = "Unknown error"%string.
Proof.
  repeat split; try reflexivity.
  intros result H0 H1 H2 H3 H4 H5.
  unfold cuttErrorString.
  apply Z.eqb_neq in H0, H1, H2, H3, H4, H5.
  now rewrite H0, H1, H2, H3, H4, H5.
Qed.

Lemma cuttErrorString_table_witness :
  cuttErrorString 6 = "Unknown error"%string
  /\ cuttErrorString (-1) = "Unknown error"%string.
Proof.
  destruct cuttErrorString_table as (_ & _ & _ & _ & _ & _ & fallback).
  split; apply fallback; unfold CUTT_SUCCESS, CUTT_INVALID_PLAN,
    CUTT_INVALID_PARAMETER, CUTT_INVALID_DEVICE, CUTT_INTERNAL_ERROR,
    CUTT_UNDEFINED_ERROR; lia.
Defined.

(** ** Construction *)

Lemma count_app (f : engine_call -> bool) (l1 l2 : list engine_call) :
  count f (l1 ++ l2) = (count f l1 + count f l2)%nat.
Proof.
  unfold count. rewrite filter_app. apply length_app.
Qed.

Lemma call_once_planning (w : world) :
  count is_planning (calls (call_once w)) = count is_planning (calls w).
Proof.
  unfold call_once. destruct (cuttInitialized w); simpl; trivial.
  rewrite count_app. unfold count. simpl. lia.
Qed.

(** C1, as the code has it: the deferring constructor does not look at the
    rank, the dimensions or the permutation.  Whatever they are, it stores
    them unchanged and returns an object that is not yet planned, provided
    the stream argument is [None] or a [pycuda.driver.Stream]; it throws
    [invalid_argument] exactly when the stream argument is neither.  Either
    way the only engine call it can make is the once-only [cuttInitialize]:
    the number of planning calls is unchanged. *)
Theorem cuTT_ctor_stores_any_request :
  forall (mem : storage) (w : world) (rank_ : Z) (dim_ permutation_ : list Z)
         (stream_ : pyobject),
    fst (cuTT_ctor mem w rank_ dim_ permutation_ stream_) = call_once w
    /\ count is_planning (calls (call_once w)) = count is_planning (calls w)
    /\ if is_none stream_ || py_isinstance stream_ pycuda_driver_Stream
       then exists stream',
              snd (cuTT_ctor mem w rank_ dim_ permutation_ stream_)
              = Returns {| plan := mem_plan mem;
                           initStatus := mem_initStatus mem;
                           planInitialized := false;
                           rank := rank_; dim := dim_;
                           permutation := permutation_;
                           stream := stream' |}
       else exists what,
              snd (cuTT_ctor mem w rank_ dim_ permutation_ stream_)
              = Throws (invalid_argument what).
Proof.
  intros mem w rank_ dim_ permutation_ stream_.
  unfold cuTT_ctor, stream_of.
  destruct (is_none stream_); simpl.
  - repeat split; [apply call_once_planning | eexists; reflexivity].
  - destruct (py_isinstance stream_ pycuda_driver_Stream); simpl;
      (repeat split; [apply call_once_planning | eexists; reflexivity]).
Qed.

(** C1 fails as stated: a request of rank 0, a permutation with a repeated
    entry, and a dimension list shorter than the rank are all accepted, and
    the object starts unplanned. *)
Lemma cuTT_ctor_accepts_invalid_requests :
  TransposeSpec_valid 0 [] [] = false
  /\ TransposeSpec_valid 3 [4; 6; 8] [0; 0; 1] = false
  /\ TransposeSpec_valid 3 [4; 6] [2; 0; 1] = false
  /\ (exists self,
        cuTT_ctor sample_storage initial_world 0 [] [] None_
        = (call_once initial_world, Returns self)
        /\ planInitialized self = false)
  /\ (exists self,
        cuTT_ctor sample_storage initial_world 3 [4; 6; 8] [0; 0; 1] None_
        = (call_once initial_world, Returns self)
        /\ planInitialized self = false)
  /\ (exists self,
        cuTT_ctor sample_storage initial_world 3 [4; 6] [2; 0; 1] None_
        = (call_once initial_world, Returns self)
        /\ planInitialized self = false).
Proof.
  repeat split; try reflexivity; eexists; split; reflexivity.
Qed.

(** ** Destruction *)

(** C2, the code at the failing input: an object is constructed without
    measurement, for the request of rank 3 with dimensions 4, 6, 8 and
    permutation 2, 0, 1 on the default stream, and is dropped without any
    [execute] call.  The destructor calls [cuttDestroy], with the handle the
    storage held before construction. *)
Theorem dtor_of_unplanned_object_calls_cuttDestroy :
  forall (E : Engine) (mem : storage),
    let p := run E initial_process
               [py_init mem 3 [4; 6; 8] [2; 0; 1] None_; py_del 0] in
    calls (proc_world p) = [call_cuttInitialize; call_cuttDestroy (mem_plan mem)]
    /\ count is_destroy (calls (proc_world p)) = 1%nat
    /\ count is_planning (calls (proc_world p)) = 0%nat.
Proof.
  intros E mem. repeat split.
Qed.

(** The handle the destructor of an unplanned object passes on may be one the
    engine has handed to another object: here the engine gives handle 7 to
    the first object, the storage of the second happens to hold 7, and
    dropping the second, which was never planned, destroys handle 7 while the
    first object goes on using it. *)
Lemma dtor_of_unplanned_object_may_hit_a_live_plan :
  calls (proc_world
    (run (stub_engine (Some 7, CUTT_SUCCESS) CUTT_SUCCESS) initial_process
       [py_init sample_storage 3 [4; 6; 8] [2; 0; 1] None_;
        py_execute 0 sample_in sample_out None_ None_;
        py_init {| mem_plan := 7; mem_initStatus := 0 |} 2 [5; 7] [1; 0] None_;
        py_del 1;
        py_execute 0 sample_in sample_out None_ None_]))
  = [call_cuttInitialize;
     call_cuttPlan 3 [4; 6; 8] [2; 0; 1] 4 0;
     call_cuttExecute 7 4096 8192 None None;
     call_cuttDestroy 7;
     call_cuttExecute 7 4096 8192 None None].
Proof. reflexivity. Qed.

(** ** What one [execute] call does *)

Lemma scalar_pointer_forwarded (py : pyobject) (v : option float) :
  scalar_pointer py = Returns v -> v = forwarded py.
Proof.
  unfold scalar_pointer, forwarded.
  destruct (is_none py); simpl.
  - intros H; injection H as <-; reflexivity.
  - destruct (cast_double py); intros H; [injection H as <-; reflexivity | discriminate].
Qed.

Lemma calls_record_call (w : world) (c : engine_call) :
  calls (record_call w c) = calls w ++ [c].
Proof. reflexivity. Qed.

(** The ways [execute] leaves early, as goals about the equation [H] of the
    call: with nothing called and nothing changed, or right after planning. *)
Ltac exits_unchanged H :=
  injection H as <- <- <-;
  split; [reflexivity|];
  exists []; rewrite app_nil_r; auto.

Ltac exits_planned H :=
  injection H as <- <- <-;
  split; [reflexivity|];
  eexists; split; [apply calls_record_call|]; right; auto.

(** The calls one [execute] makes and what it does to the object.  On a
    planned object it leaves the object as it is and makes no call or the one
    [cuttExecute] call; on an unplanned object it either throws before the
    plan is touched, or plans, marks the object planned, and then makes the
    [cuttExecute] call or not. *)
Lemma execute_shape (E : Engine) (self : cuTT) (w : world)
    (idata odata pyalpha pybeta : pyobject) (self' : cuTT) (w' : world)
    (r : outcome unit) :
  execute E self w idata odata pyalpha pybeta = (self', w', r) ->
  let P := call_cuttPlan (rank self) (dim self) (permutation self)
             (attr_itemsize idata) (stream self) in
  let X := call_cuttExecute (plan self') (attr_ptr idata) (attr_ptr odata)
             (forwarded pyalpha) (forwarded pybeta) in
  cuttInitialized w' = cuttInitialized w
  /\ exists new,
       calls w' = calls w ++ new
       /\ if planInitialized self
          then self' = self /\ (new = [] \/ new = [X])
          else (self' = self /\ new = [])
               \/ (planInitialized self' = true /\ (new = [P] \/ new = [P; X])).
Proof.
  intros H P X; subst P X. unfold execute in H.
  destruct (planInitialized self) eqn:Hinit.
  - destruct (negb (py_isinstance idata pycuda_gpuarray_GPUArray));
      [exits_unchanged H|].
    destruct (negb (py_isinstance odata pycuda_gpuarray_GPUArray));
      [exits_unchanged H|].
    destruct (negb (dtype_is (attr_dtype idata) (attr_dtype odata)));
      [exits_unchanged H|].
    simpl in H.
    destruct (negb (initStatus self =? CUTT_SUCCESS)); [exits_unchanged H|].
    destruct (scalar_pointer pyalpha) as [alpha|e] eqn:Ha; [|exits_unchanged H].
    destruct (scalar_pointer pybeta) as [beta|e] eqn:Hb; [|exits_unchanged H].
    apply scalar_pointer_forwarded in Ha, Hb. subst alpha beta.
    destruct (negb (_ =? CUTT_SUCCESS)); injection H as <- <- <-;
      (split; [reflexivity|]; eexists; split; [apply calls_record_call|]; auto).
  - destruct (negb (py_isinstance idata pycuda_gpuarray_GPUArray));
      [exits_unchanged H|].
    destruct (negb (py_isinstance odata pycuda_gpuarray_GPUArray));
      [exits_unchanged H|].
    destruct (negb (dtype_is (attr_dtype idata) (attr_dtype odata)));
      [exits_unchanged H|].
    simpl in H.
    destruct (cuttPlan E (calls w) (rank self) (dim self) (permutation self)
                (attr_itemsize idata) (stream self)) as [h status].
    cbn [initStatus plan] in H.
    destruct (negb (status =? CUTT_SUCCESS)); [exits_planned H|].
    destruct (scalar_pointer pyalpha) as [alpha|e] eqn:Ha; [|exits_planned H].
    destruct (scalar_pointer pybeta) as [beta|e] eqn:Hb; [|exits_planned H].
    apply scalar_pointer_forwarded in Ha, Hb. subst alpha beta.
    destruct (negb (_ =? CUTT_SUCCESS)); injection H as <- <- <-;
      (split; [reflexivity|]; exists [call_cuttPlan (rank self) (dim self)
         (permutation self) (attr_itemsize idata) (stream self);
         call_cuttExecute (written h (plan self)) (attr_ptr idata)
           (attr_ptr odata) (forwarded pyalpha) (forwarded pybeta)];
       split; [rewrite !calls_record_call, <- app_assoc; reflexivity|];
       right; auto).
Qed.

Lemma valid_pair_true (idata odata : pyobject) :
  valid_pair idata odata = true ->
  py_isinstance idata pycuda_gpuarray_GPUArray = true
  /\ py_isinstance odata pycuda_gpuarray_GPUArray = true
  /\ dtype_is (attr_dtype idata) (attr_dtype odata) = true.
Proof.
  unfold valid_pair. intros H.
  apply andb_prop in H as [H H3]. apply andb_prop in H as [H1 H2]. auto.
Qed.

(** An object that is marked planned and holds a failed planning status
    answers every [execute] call with an exception, makes no engine call and
    stays as it is; when the buffers pass validation the exception carries the
    text of the stored status. *)
Lemma execute_with_failed_plan (E : Engine) (self : cuTT) :
  planInitialized self = true ->
  initStatus self <> CUTT_SUCCESS ->
  forall (w : world) (idata odata pyalpha pybeta : pyobject),
  exists e,
    execute E self w idata odata pyalpha pybeta = (self, w, Throws e)
    /\ (valid_pair idata odata = true ->
        e = invalid_argument
              ("cuTT error: " ++ cuttErrorString (initStatus self))%string).
Proof.
  intros Hinit Hst w idata odata pyalpha pybeta.
  apply Z.eqb_neq in Hst.
  unfold execute, valid_pair.
  destruct (py_isinstance idata pycuda_gpuarray_GPUArray); simpl;
    [| eexists; split; [reflexivity | discriminate]].
  destruct (py_isinstance odata pycuda_gpuarray_GPUArray); simpl;
    [| eexists; split; [reflexivity | discriminate]].
  destruct (dtype_is (attr_dtype idata) (attr_dtype odata)); simpl;
    [| eexists; split; [reflexivity | discriminate]].
  rewrite Hinit; simpl. rewrite Hst; simpl.
  eexists; split; reflexivity.
Qed.

(** Against a class, as in [execute] and in the stream test, [py::isinstance]
    gives the object's own answer. *)
Lemma isinstance_of_class (obj : pyobject) (cls : pyclass) :
  is_type cls = true -> isinstance obj cls = Returns (py_isinstance obj cls).
Proof. unfold isinstance. intros ->. reflexivity. Qed.

(** The array test of the measuring constructor is against the module, so it
    throws before anything but the once-only initialisation has happened. *)
Lemma cuTT_ctor_measure_throws (E : Engine) (mem : storage) (w : world)
    (rank_ : Z) (dim_ permutation_ : list Z) (stream_ idata odata : pyobject)
    (alpha beta : Z) :
  cuTT_ctor_measure E mem w rank_ dim_ permutation_ stream_ idata odata
                    alpha beta
  = (call_once w, Throws (error_already_set "TypeError")).
Proof. reflexivity. Qed.


(** ** Execution on a planned object *)

Lemma no_call_added (l : list engine_call) (c : engine_call) :
  l = l ++ [c] -> False.
Proof.
  intros H. apply (f_equal (@List.length engine_call)) in H.
  rewrite length_app in H. simpl in H. lia.
Qed.

(** An early exit of [execute] cannot be the call that added [Hcalls]' call. *)
Ltac calls_nothing Hex Hcalls :=
  injection Hex as <- <- <-; destruct (no_call_added _ _ Hcalls).

(** C5: on an object that is marked planned, whenever an [execute] call gets
    as far as the engine's [cuttExecute], the result code the engine answers
    decides how the call ends.  A code other than Success makes the call throw
    an error whose text is "cuTT error: " followed by the text
    [cuttErrorString] gives for that code, so it contains that text; Success
    makes the call return normally.  In both cases the object is left exactly
    as it was, still marked planned, so the call can be made again. *)
Theorem execute_reports_engine_status :
  forall (E : Engine) (self : cuTT) (w : world)
         (idata odata pyalpha pybeta : pyobject)
         (self' : cuTT) (w' : world) (r : outcome unit)
         (h : cuttHandle) (i o : Z) (a b : option float),
    planInitialized self = true ->
    execute E self w idata odata pyalpha pybeta = (self', w', r) ->
    calls w' = calls w ++ [call_cuttExecute h i o a b] ->
    let status := cuttExecute E (calls w) h i o a b in
    self' = self
    /\ planInitialized self' = true
    /\ h = plan self
    /\ (status <> CUTT_SUCCESS ->
        r = Throws (invalid_argument
                      ("cuTT error: " ++ cuttErrorString status)%string)
        /\ contains (cuttErrorString status)
                    ("cuTT error: " ++ cuttErrorString status) = true)
    /\ (status = CUTT_SUCCESS -> r = Returns tt).
Proof.
  intros E self w idata odata pyalpha pybeta self' w' r h i o a b
         Hinit Hex Hcalls status; subst status.
  unfold execute in Hex. rewrite Hinit in Hex. simpl in Hex.
  destruct (negb (py_isinstance idata pycuda_gpuarray_GPUArray));
    [calls_nothing Hex Hcalls|].
  destruct (negb (py_isinstance odata pycuda_gpuarray_GPUArray));
    [calls_nothing Hex Hcalls|].
  destruct (negb (dtype_is (attr_dtype idata) (attr_dtype odata)));
    [calls_nothing Hex Hcalls|].
  destruct (negb (initStatus self =? CUTT_SUCCESS)); [calls_nothing Hex Hcalls|].
  destruct (scalar_pointer pyalpha) as [alpha|e]; [|calls_nothing Hex Hcalls].
  destruct (scalar_pointer pybeta) as [beta|e]; [|calls_nothing Hex Hcalls].
  assert (Hsame : call_cuttExecute (plan self) (attr_ptr idata) (attr_ptr odata)
                    alpha beta = call_cuttExecute h i o a b).
  { destruct (negb (_ =? CUTT_SUCCESS)); injection Hex as <- <- <-;
      rewrite calls_record_call in Hcalls;
      apply app_inv_head in Hcalls; injection Hcalls; congruence. }
  injection Hsame as <- <- <- <- <-.
  destruct (cuttExecute E (calls w) (plan self) (attr_ptr idata)
              (attr_ptr odata) alpha beta =? CUTT_SUCCESS) eqn:Hst;
    simpl in Hex; injection Hex as <- <- <-.
  - apply Z.eqb_eq in Hst.
    split; [reflexivity|]. split; [assumption|]. split; [reflexivity|].
    split; [intros Hne; contradiction | reflexivity].
  - apply Z.eqb_neq in Hst.
    split; [reflexivity|]. split; [assumption|]. split; [reflexivity|].
    split; [intros _ | intros Heq; contradiction].
    split; [reflexivity|].
    unfold cuttErrorString.
    repeat match goal with
           | |- context [if ?c then _ else _] => destruct c
           end; reflexivity.
Qed.

Lemma execute_reports_engine_status_witness :
  snd (execute (stub_engine (Some 7, CUTT_SUCCESS) CUTT_INVALID_DEVICE)
         sample_planned initial_world sample_in sample_out None_ None_)
  = Throws (invalid_argument
      "cuTT error: Execution tried on device different than where plan was created")
  /\ fst (fst (execute (stub_engine (Some 7, CUTT_SUCCESS) CUTT_INVALID_DEVICE)
                 sample_planned initial_world sample_in sample_out None_ None_))
     = sample_planned.
Proof.
  pose proof (execute_reports_engine_status
    (stub_engine (Some 7, CUTT_SUCCESS) CUTT_INVALID_DEVICE)
    sample_planned initial_world sample_in sample_out None_ None_
    _ _ _ 7 4096 8192 None None eq_refl eq_refl eq_refl)
    as (Hself & _ & _ & Hthrow & _).
  split; [apply Hthrow; discriminate | exact Hself].
Defined.

(** C6: when the input and the output array report different dtype objects,
    [execute] throws [invalid_argument] and nothing else happens: the object
    and the list of engine calls are as before, so neither [cuttPlan] nor
    [cuttExecute] is called and no data is converted. *)
Theorem execute_refuses_mismatched_types :
  forall (E : Engine) (self : cuTT) (w : world)
         (idata odata pyalpha pybeta : pyobject),
    dtype_id (attr_dtype idata) <> dtype_id (attr_dtype odata) ->
    exists what,
      execute E self w idata odata pyalpha pybeta
      = (self, w, Throws (invalid_argument what)).
Proof.
  intros E self w idata odata pyalpha pybeta Hne.
  unfold execute, dtype_is.
  apply Z.eqb_neq in Hne. rewrite Hne. simpl.
  destruct (py_isinstance idata pycuda_gpuarray_GPUArray); simpl;
    [| eexists; reflexivity].
  destruct (py_isinstance odata pycuda_gpuarray_GPUArray); simpl;
    eexists; reflexivity.
Qed.

Lemma execute_refuses_mismatched_types_witness :
  exists what,
    execute (stub_engine (Some 7, CUTT_SUCCESS) CUTT_SUCCESS)
            sample_planned initial_world sample_in sample_out64 None_ None_
    = (sample_planned, initial_world, Throws (invalid_argument what)).
Proof.
  apply (execute_refuses_mismatched_types
           (stub_engine (Some 7, CUTT_SUCCESS) CUTT_SUCCESS)
           sample_planned initial_world sample_in sample_out64 None_ None_).
  simpl. lia.
Defined.

(** C8: the coefficients of every [cuttExecute] call that an [execute] call
    makes are the caller's: a null pointer for an argument that is [None], and
    the [double] the argument casts to otherwise.  In the two scenarios of the
    spec, for the request of rank 3 with dimensions 4, 6, 8 and permutation
    2, 0, 1 on the default stream and an engine that answers Success, the
    engine receives two null pointers when both scalars are left out, and
    exactly 2.0 and 0.5 when those are passed. *)
Theorem execute_forwards_coefficients :
  (forall (E : Engine) (self : cuTT) (w : world)
          (idata odata pyalpha pybeta : pyobject),
      exists new,
        calls (snd (fst (execute E self w idata odata pyalpha pybeta)))
        = calls w ++ new
        /\ forall (h : cuttHandle) (i o : Z) (a b : option float),
             In (call_cuttExecute h i o a b) new ->
             a = forwarded pyalpha /\ b = forwarded pybeta)
  /\ calls (proc_world
       (run (stub_engine (Some 7, CUTT_SUCCESS) CUTT_SUCCESS) initial_process
          [py_init sample_storage 3 [4; 6; 8] [2; 0; 1] None_;
           py_execute 0 sample_in sample_out None_ None_]))
     = [call_cuttInitialize;
        call_cuttPlan 3 [4; 6; 8] [2; 0; 1] 4 0;
        call_cuttExecute 7 4096 8192 None None]
  /\ calls (proc_world
       (run (stub_engine (Some 7, CUTT_SUCCESS) CUTT_SUCCESS) initial_process
          [py_init sample_storage 3 [4; 6; 8] [2; 0; 1] None_;
           py_execute 0 sample_in sample_out
             (sample_float 2%float "2.0") (sample_float 0.5%float "0.5")]))
     = [call_cuttInitialize;
        call_cuttPlan 3 [4; 6; 8] [2; 0; 1] 4 0;
        call_cuttExecute 7 4096 8192 (Some 2%float) (Some 0.5%float)].
Proof.
  split; [| split; reflexivity].
  intros E self w idata odata pyalpha pybeta.
  destruct (execute E self w idata odata pyalpha pybeta) as [[self' w'] r] eqn:Hex.
  destruct (execute_shape _ _ _ _ _ _ _ _ _ _ Hex) as (_ & new & Hnew & Hcase).
  exists new. split; [exact Hnew|].
  intros h i o a b Hin.
  assert (Hnew' : new = [] \/ (exists c, is_plan c = true /\ new = [c])
          \/ new = [call_cuttExecute (plan self') (attr_ptr idata) (attr_ptr odata)
                      (forwarded pyalpha) (forwarded pybeta)]
          \/ (exists c, is_plan c = true
                /\ new = [c; call_cuttExecute (plan self') (attr_ptr idata)
                               (attr_ptr odata) (forwarded pyalpha)
                               (forwarded pybeta)])).
  { destruct (planInitialized self).
    - destruct Hcase as (_ & [-> | ->]); auto.
    - destruct Hcase as [(_ & ->) | (_ & [-> | ->])]; auto.
      + right; left; eexists; split; [|reflexivity]; reflexivity.
      + right; right; right; eexists; split; [|reflexivity]; reflexivity. }
  destruct Hnew' as [-> | [(c & Hc & ->) | [-> | (c & Hc & ->)]]]; simpl in Hin.
  - contradiction.
  - destruct Hin as [Heq | []]. subst c. discriminate.
  - destruct Hin as [Heq | []]. injection Heq as _ _ _ <- <-. auto.
  - destruct Hin as [Heq | [Heq | []]]; [subst c; discriminate|].
    injection Heq as _ _ _ <- <-. auto.
Qed.

Lemma execute_forwards_coefficients_witness :
  Some 2%float = forwarded (sample_float 2%float "2.0")
  /\ Some 0.5%float = forwarded (sample_float 0.5%float "0.5").
Proof.
  destruct (proj1 execute_forwards_coefficients
              (stub_engine (Some 7, CUTT_SUCCESS) CUTT_SUCCESS)
              sample_planned initial_world sample_in sample_out
              (sample_float 2%float "2.0") (sample_float 0.5%float "0.5"))
    as (new & Hnew & Hall).
  simpl in Hnew. subst new.
  apply (Hall 7 4096 8192). simpl. left. reflexivity.
Defined.

(** ** Deferred planning *)

(** With a valid buffer pair an [execute] call on an unplanned object reaches
    the planning block: afterwards the object is marked planned. *)
Lemma execute_valid_marks_planned (E : Engine) (self : cuTT) (w : world)
    (idata odata pyalpha pybeta : pyobject) (self' : cuTT) (w' : world)
    (r : outcome unit) :
  valid_pair idata odata = true ->
  execute E self w idata odata pyalpha pybeta = (self', w', r) ->
  planInitialized self' = true.
Proof.
  intros Hvalid Hex.
  apply valid_pair_true in Hvalid as (Hi & Ho & Hd).
  unfold execute in Hex. rewrite Hi, Ho, Hd in Hex. simpl in Hex.
  destruct (planInitialized self) eqn:Hinit; simpl in Hex.
  - destruct (negb (initStatus self =? CUTT_SUCCESS));
      [injection Hex as <- _ _; exact Hinit|].
    destruct (scalar_pointer pyalpha); [| injection Hex as <- _ _; exact Hinit].
    destruct (scalar_pointer pybeta); [| injection Hex as <- _ _; exact Hinit].
    destruct (negb (_ =? CUTT_SUCCESS)); injection Hex as <- _ _; exact Hinit.
  - destruct (cuttPlan E (calls w) (rank self) (dim self) (permutation self)
                (attr_itemsize idata) (stream self)) as [h status].
    cbn [initStatus plan] in Hex.
    destruct (negb (status =? CUTT_SUCCESS));
      [injection Hex as <- _ _; reflexivity|].
    destruct (scalar_pointer pyalpha); [| injection Hex as <- _ _; reflexivity].
    destruct (scalar_pointer pybeta); [| injection Hex as <- _ _; reflexivity].
    destruct (negb (_ =? CUTT_SUCCESS)); injection Hex as <- _ _; reflexivity.
Qed.

(** Any run of [execute] calls on a planned object leaves the object as it is
    and adds nothing but [cuttExecute] calls on the object's handle. *)
Lemma execute_all_planned (E : Engine) (rest : list exec_args) :
  forall (self : cuTT) (w : world) (self2 : cuTT) (w2 : world),
    planInitialized self = true ->
    execute_all E self w rest = (self2, w2) ->
    self2 = self
    /\ exists new,
         calls w2 = calls w ++ new
         /\ Forall (fun c => exists i o a b,
                      c = call_cuttExecute (plan self) i o a b) new.
Proof.
  induction rest as [|a rest IH]; intros self w self2 w2 Hinit Hall; simpl in Hall.
  - injection Hall as <- <-. split; [reflexivity|].
    exists []. rewrite app_nil_r. split; [reflexivity | constructor].
  - destruct (execute E self w (arg_idata a) (arg_odata a) (arg_pyalpha a)
                (arg_pybeta a)) as [[self1 w1] r1] eqn:Hex.
    destruct (execute_shape _ _ _ _ _ _ _ _ _ _ Hex) as (_ & new1 & Hnew1 & Hcase).
    rewrite Hinit in Hcase. destruct Hcase as (-> & Hcase).
    destruct (IH _ _ _ _ Hinit Hall) as (-> & new2 & Hnew2 & Hforall).
    split; [reflexivity|].
    exists (new1 ++ new2). split.
    + rewrite Hnew2, Hnew1, app_assoc. reflexivity.
    + apply Forall_app. split; [| exact Hforall].
      destruct Hcase as [-> | ->]; repeat constructor.
      do 4 eexists; reflexivity.
Qed.

Lemma count_planning_executes (h : cuttHandle) (new : list engine_call) :
  Forall (fun c => exists i o a b, c = call_cuttExecute h i o a b) new ->
  count is_planning new = 0%nat.
Proof.
  induction 1 as [|c new (i & o & a & b & ->) _ IH]; [reflexivity|].
  unfold count in *. simpl. exact IH.
Qed.

(** What the planning call of a first valid [execute] leaves in the object:
    the handle the engine wrote (the old one if it wrote none) and the status
    it answered; and the calls made are the planning call, followed or not by
    the [cuttExecute] call on that handle. *)
Lemma execute_stores_reply (E : Engine) (self : cuTT) (w : world)
    (idata odata pyalpha pybeta : pyobject) (self' : cuTT) (w' : world)
    (r : outcome unit) :
  planInitialized self = false ->
  valid_pair idata odata = true ->
  execute E self w idata odata pyalpha pybeta = (self', w', r) ->
  plan self'
  = match fst (cuttPlan E (calls w) (rank self) (dim self) (permutation self)
                 (attr_itemsize idata) (stream self)) with
    | Some h => h
    | None => plan self
    end
  /\ initStatus self'
     = snd (cuttPlan E (calls w) (rank self) (dim self) (permutation self)
              (attr_itemsize idata) (stream self))
  /\ exists later,
       calls w' = calls w ++ call_cuttPlan (rank self) (dim self)
                    (permutation self) (attr_itemsize idata) (stream self)
                    :: later
       /\ (later = []
           \/ later = [call_cuttExecute (plan self') (attr_ptr idata)
                         (attr_ptr odata) (forwarded pyalpha)
                         (forwarded pybeta)]).
Proof.
  intros Hinit Hvalid Hex.
  apply valid_pair_true in Hvalid as (Hi & Ho & Hd).
  unfold execute in Hex. rewrite Hi, Ho, Hd, Hinit in Hex. simpl in Hex.
  destruct (cuttPlan E (calls w) (rank self) (dim self) (permutation self)
              (attr_itemsize idata) (stream self)) as [h status].
  cbn [initStatus plan fst snd] in *.
  assert (Hw : written h (plan self)
               = match h with Some h' => h' | None => plan self end)
    by (destruct h; reflexivity).
  destruct (negb (status =? CUTT_SUCCESS)).
  { injection Hex as <- <- _. cbn [plan initStatus].
    split; [exact Hw|]. split; [reflexivity|].
    exists []. split; [apply calls_record_call | left; reflexivity]. }
  destruct (scalar_pointer pyalpha) as [alpha|e] eqn:Ha.
  2:{ injection Hex as <- <- _. cbn [plan initStatus].
      split; [exact Hw|]. split; [reflexivity|].
      exists []. split; [apply calls_record_call | left; reflexivity]. }
  destruct (scalar_pointer pybeta) as [beta|e] eqn:Hb.
  2:{ injection Hex as <- <- _. cbn [plan initStatus].
      split; [exact Hw|]. split; [reflexivity|].
      exists []. split; [apply calls_record_call | left; reflexivity]. }
  apply scalar_pointer_forwarded in Ha, Hb. subst alpha beta.
  destruct (negb (_ =? CUTT_SUCCESS)); injection Hex as <- <- _;
    cbn [plan initStatus];
    (split; [exact Hw|]; split; [reflexivity|];
     eexists; split;
     [rewrite !calls_record_call, <- app_assoc; reflexivity
     | right; reflexivity]).
Qed.

(** C4: on an object that is not yet planned, the first [execute] call with a
    valid buffer pair makes exactly one planning call and marks the object
    planned; the handle the object holds from then on is the very handle the
    engine wrote at that planning call, and the stored status is the one it
    answered.  Whatever [execute] calls follow on that object, with whatever
    buffers, they leave the object as it is, make no planning call, and every
    [cuttExecute] call, of the first call as of the later ones, is on that
    handle. *)
Theorem first_execute_plans_exactly_once :
  forall (E : Engine) (self : cuTT) (w : world) (first : exec_args)
         (rest : list exec_args) (self1 : cuTT) (w1 : world)
         (r1 : outcome unit) (self2 : cuTT) (w2 : world),
    planInitialized self = false ->
    valid_pair (arg_idata first) (arg_odata first) = true ->
    execute E self w (arg_idata first) (arg_odata first)
            (arg_pyalpha first) (arg_pybeta first) = (self1, w1, r1) ->
    execute_all E self1 w1 rest = (self2, w2) ->
    planInitialized self1 = true
    /\ count is_planning (calls w1) = S (count is_planning (calls w))
    /\ count is_plan (calls w1) = S (count is_plan (calls w))
    /\ self2 = self1
    /\ count is_planning (calls w2) = count is_planning (calls w1)
    /\ (exists new,
          calls w2 = calls w1 ++ new
          /\ forall (h : cuttHandle) (i o : Z) (a b : option float),
               In (call_cuttExecute h i o a b) new -> h = plan self1)
    /\ (forall h : cuttHandle,
          fst (cuttPlan E (calls w) (rank self) (dim self) (permutation self)
                 (attr_itemsize (arg_idata first)) (stream self)) = Some h ->
          plan self1 = h)
    /\ (fst (cuttPlan E (calls w) (rank self) (dim self) (permutation self)
                (attr_itemsize (arg_idata first)) (stream self)) = None ->
        plan self1 = plan self)
    /\ initStatus self1
       = snd (cuttPlan E (calls w) (rank self) (dim self) (permutation self)
                (attr_itemsize (arg_idata first)) (stream self))
    /\ exists later,
         calls w1 = calls w ++ call_cuttPlan (rank self) (dim self)
                      (permutation self) (attr_itemsize (arg_idata first))
                      (stream self) :: later
         /\ forall (h : cuttHandle) (i o : Z) (a b : option float),
              In (call_cuttExecute h i o a b) later -> h = plan self1.
Proof.
  intros E self w first rest self1 w1 r1 self2 w2 Hinit Hvalid Hex Hall.
  pose proof (execute_valid_marks_planned _ _ _ _ _ _ _ _ _ _ Hvalid Hex) as Hplanned.
  destruct (execute_shape _ _ _ _ _ _ _ _ _ _ Hex) as (_ & new1 & Hnew1 & Hcase).
  destruct (execute_stores_reply _ _ _ _ _ _ _ _ _ _ Hinit Hvalid Hex)
    as (Hplan & Hstatus & later & Hlater & Hshape).
  rewrite Hinit in Hcase.
  destruct (execute_all_planned _ _ _ _ _ _ Hplanned Hall)
    as (-> & new & Hnew & Hforall).
  assert (Hone : count is_planning new1 = 1%nat /\ count is_plan new1 = 1%nat).
  { destruct Hcase as [(-> & _) | (_ & [-> | ->])].
    - congruence.
    - split; reflexivity.
    - split; reflexivity. }
  destruct Hone as (Hone & Hone').
  split; [exact Hplanned|].
  split; [rewrite Hnew1, count_app, Hone; lia|].
  split; [rewrite Hnew1, count_app, Hone'; lia|].
  split; [reflexivity|].
  split; [rewrite Hnew, count_app, (count_planning_executes _ _ Hforall); lia|].
  split.
  { exists new. split; [exact Hnew|].
    intros h i o a b Hin.
    rewrite Forall_forall in Hforall.
    destruct (Hforall _ Hin) as (i' & o' & a' & b' & Heq).
    injection Heq as -> _ _ _ _. reflexivity. }
  split; [intros h Hh; rewrite Hh in Hplan; exact Hplan|].
  split; [intros Hh; rewrite Hh in Hplan; exact Hplan|].
  split; [exact Hstatus|].
  exists later. split; [exact Hlater|].
  intros h i o a b Hin.
  destruct Hshape as [-> | ->]; simpl in Hin.
  - contradiction.
  - destruct Hin as [Heq | []]. injection Heq as <- _ _ _ _. reflexivity.
Qed.

Lemma first_execute_plans_exactly_once_witness :
  count is_plan
    (calls (snd (fst (execute (stub_engine (Some 7, CUTT_SUCCESS) CUTT_SUCCESS)
                        sample_unplanned initial_world
                        sample_in sample_out None_ None_))))
  = 1%nat
  /\ count is_planning
       (calls (snd (execute_all (stub_engine (Some 7, CUTT_SUCCESS) CUTT_SUCCESS)
                      sample_unplanned initial_world
                      (sample_call :: sample_later_calls))))
     = count is_planning
         (calls (snd (fst (execute (stub_engine (Some 7, CUTT_SUCCESS) CUTT_SUCCESS)
                             sample_unplanned initial_world
                             sample_in sample_out None_ None_))))
  /\ plan (fst (fst (execute (stub_engine (Some 7, CUTT_SUCCESS) CUTT_SUCCESS)
                        sample_unplanned initial_world
                        sample_in sample_out None_ None_)))
     = 7.
Proof.
  pose proof (first_execute_plans_exactly_once
    (stub_engine (Some 7, CUTT_SUCCESS) CUTT_SUCCESS)
    sample_unplanned initial_world sample_call sample_later_calls
    _ _ _ _ _ eq_refl eq_refl eq_refl eq_refl)
    as (_ & _ & H1 & _ & H2 & _ & H3 & _).
  split; [exact H1 |]. split; [exact H2 | exact (H3 7 eq_refl)].
Defined.

(** C10, as the code has it: when the planning attempted by the first
    [execute] call fails, that call throws the error text of the failed code,
    and the object is from then on marked planned with the failed code
    stored.  Every later [execute] call on it throws, makes no engine call at
    all (so the plan is never attempted again) and leaves the object as it
    is; the exception carries the text of the stored code whenever the call's
    buffers pass validation, and is the validation error otherwise. *)
Theorem failed_resolution_is_never_retried :
  forall (E : Engine) (self : cuTT) (w : world)
         (idata odata pyalpha pybeta : pyobject),
    planInitialized self = false ->
    valid_pair idata odata = true ->
    let reply := cuttPlan E (calls w) (rank self) (dim self) (permutation self)
                   (attr_itemsize idata) (stream self) in
    snd reply <> CUTT_SUCCESS ->
    exists self1 w1,
      execute E self w idata odata pyalpha pybeta
      = (self1, w1, Throws (invalid_argument
           ("cuTT error: " ++ cuttErrorString (snd reply))%string))
      /\ planInitialized self1 = true
      /\ initStatus self1 = snd reply
      /\ calls w1 = calls w ++ [call_cuttPlan (rank self) (dim self)
                                  (permutation self) (attr_itemsize idata)
                                  (stream self)]
      /\ (forall (w2 : world) (idata2 odata2 pyalpha2 pybeta2 : pyobject),
            exists e,
              execute E self1 w2 idata2 odata2 pyalpha2 pybeta2
              = (self1, w2, Throws e)
              /\ (valid_pair idata2 odata2 = true ->
                  e = invalid_argument
                        ("cuTT error: " ++ cuttErrorString (snd reply))%string))
      /\ (forall (rest : list exec_args) (w2 : world),
            execute_all E self1 w2 rest = (self1, w2)).
Proof.
  intros E self w idata odata pyalpha pybeta Hinit Hvalid reply Hfail.
  apply valid_pair_true in Hvalid as (Hi & Ho & Hd).
  unfold execute at 1. rewrite Hi, Ho, Hd, Hinit. simpl.
  fold reply. destruct reply as [h status] eqn:Hreply. simpl in Hfail.
  cbn [initStatus plan snd].
  pose proof Hfail as Hneq. apply Z.eqb_neq in Hneq. rewrite Hneq. simpl.
  eexists. eexists. split; [reflexivity|].
  split; [reflexivity|]. split; [reflexivity|]. split; [reflexivity|].
  match goal with |- (forall w2 i2 o2 a2 b2, exists e, execute E ?s _ _ _ _ _ = _ /\ _) /\ _ =>
    pose proof (execute_with_failed_plan E s eq_refl Hfail) as Hlater end.
  split; [exact Hlater|].
  induction rest as [|a rest IH]; intros w2; simpl; [reflexivity|].
  destruct (Hlater w2 (arg_idata a) (arg_odata a) (arg_pyalpha a) (arg_pybeta a))
    as (e & -> & _).
  apply IH.
Qed.

Lemma failed_resolution_is_never_retried_witness :
  exists self1 w1,
    execute (stub_engine (None, CUTT_INVALID_PARAMETER) CUTT_SUCCESS)
            sample_unplanned initial_world sample_in sample_out None_ None_
    = (self1, w1, Throws (invalid_argument
         ("cuTT error: " ++ cuttErrorString CUTT_INVALID_PARAMETER)%string))
    /\ planInitialized self1 = true
    /\ forall (rest : list exec_args) (w2 : world),
         execute_all (stub_engine (None, CUTT_INVALID_PARAMETER) CUTT_SUCCESS)
                     self1 w2 rest = (self1, w2).
Proof.
  destruct (failed_resolution_is_never_retried
              (stub_engine (None, CUTT_INVALID_PARAMETER) CUTT_SUCCESS)
              sample_unplanned initial_world sample_in sample_out None_ None_
              eq_refl eq_refl)
    as (self1 & w1 & Hex & Hplanned & _ & _ & _ & Hall).
  - simpl. unfold CUTT_INVALID_PARAMETER, CUTT_SUCCESS. lia.
  - exists self1, w1. split; [exact Hex|]. split; [exact Hplanned | exact Hall].
Defined.

(** C10 fails as stated: the first [execute] call fails to plan, and a later
    call whose input is not an array throws the validation error, whose text
    does not mention the stored planning result. *)
Lemma later_call_may_throw_another_error :
  execute (stub_engine (None, CUTT_INVALID_PARAMETER) CUTT_SUCCESS)
          sample_unplanned initial_world sample_in sample_out None_ None_
  = ({| plan := mem_plan sample_storage; initStatus := CUTT_INVALID_PARAMETER;
        planInitialized := true;
        rank := 3; dim := [4; 6; 8]; permutation := [2; 0; 1]; stream := 0 |},
     record_call initial_world (call_cuttPlan 3 [4; 6; 8] [2; 0; 1] 4 0),
     Throws (invalid_argument "cuTT error: Invalid input parameter"))
  /\ execute (stub_engine (None, CUTT_INVALID_PARAMETER) CUTT_SUCCESS)
       {| plan := mem_plan sample_storage; initStatus := CUTT_INVALID_PARAMETER;
          planInitialized := true;
          rank := 3; dim := [4; 6; 8]; permutation := [2; 0; 1]; stream := 0 |}
       (record_call initial_world (call_cuttPlan 3 [4; 6; 8] [2; 0; 1] 4 0))
       sample_text sample_out None_ None_
     = ({| plan := mem_plan sample_storage; initStatus := CUTT_INVALID_PARAMETER;
           planInitialized := true;
           rank := 3; dim := [4; 6; 8]; permutation := [2; 0; 1]; stream := 0 |},
        record_call initial_world (call_cuttPlan 3 [4; 6; 8] [2; 0; 1] 4 0),
        Throws (invalid_argument
                  "Input array must be a pycuda.gpuarray, got: abc"))
  /\ contains (cuttErrorString CUTT_INVALID_PARAMETER)
       "Input array must be a pycuda.gpuarray, got: abc" = false.
Proof.
  repeat split.
Qed.

(** ** Once-only initialisation *)

Lemma call_once_starts (w : world) :
  (cuttInitialized w = false /\ calls w = []) \/ started w ->
  started (call_once w).
Proof.
  unfold call_once. intros [(Hflag & Hcalls) | Hst].
  - rewrite Hflag, Hcalls. split; [reflexivity|].
    exists []. split; reflexivity.
  - destruct Hst as (Hflag & Hrest). rewrite Hflag. split; assumption.
Qed.

Lemma started_extend (w w' : world) (new : list engine_call) :
  started w ->
  cuttInitialized w' = cuttInitialized w ->
  calls w' = calls w ++ new ->
  count is_initialize new = 0%nat ->
  started w'.
Proof.
  intros (Hflag & rest & Hcalls & Hrest) Hflag' Hcalls' Hnew.
  split; [congruence|].
  exists (rest ++ new). split.
  - rewrite Hcalls', Hcalls. reflexivity.
  - rewrite count_app. lia.
Qed.

Lemma cuTT_ctor_starts (mem : storage) (w : world) (rank_ : Z)
    (dim_ permutation_ : list Z) (stream_ : pyobject) :
  (cuttInitialized w = false /\ calls w = []) \/ started w ->
  started (fst (cuTT_ctor mem w rank_ dim_ permutation_ stream_)).
Proof.
  intros H. unfold cuTT_ctor.
  destruct (stream_of stream_); simpl; apply call_once_starts; exact H.
Qed.

Lemma execute_keeps_started (E : Engine) (self : cuTT) (w : world)
    (idata odata pyalpha pybeta : pyobject) (self' : cuTT) (w' : world)
    (r : outcome unit) :
  execute E self w idata odata pyalpha pybeta = (self', w', r) ->
  started w -> started w'.
Proof.
  intros Hex Hst.
  destruct (execute_shape _ _ _ _ _ _ _ _ _ _ Hex) as (Hflag & new & Hnew & Hcase).
  apply (started_extend w w' new Hst Hflag Hnew).
  destruct (planInitialized self).
  - destruct Hcase as (_ & [-> | ->]); reflexivity.
  - destruct Hcase as [(_ & ->) | (_ & [-> | ->])]; reflexivity.
Qed.

Lemma nth_error_nil_none {A : Type} (i : nat) : nth_error (@nil A) i = None.
Proof. destruct i; reflexivity. Qed.

(** Once the engine is started it stays so, whatever the program calls. *)
Lemma step_keeps_started (E : Engine) (p : process) (c : api_call) :
  started (proc_world p) -> started (proc_world (step E p c)).
Proof.
  intros Hst.
  destruct c as [mem r d pm s | mem r d pm s i o a b | n i o a b | n]; simpl.
  - pose proof (cuTT_ctor_starts mem (proc_world p) r d pm s (or_intror Hst)) as H.
    destruct (cuTT_ctor mem (proc_world p) r d pm s) as [w' out]. exact H.
  - rewrite ?cuTT_ctor_measure_throws; simpl.
    apply call_once_starts. right. exact Hst.
  - destruct (nth_error (objects p) n) as [[self|]|]; try exact Hst.
    destruct (execute E self (proc_world p) i o a b) as [[self' w'] out] eqn:Hex.
    simpl. exact (execute_keeps_started _ _ _ _ _ _ _ _ _ _ Hex Hst).
  - destruct (nth_error (objects p) n) as [[self|]|]; try exact Hst.
    simpl. unfold cuTT_dtor.
    eapply started_extend;
      [exact Hst | reflexivity | apply calls_record_call | reflexivity].
Qed.

(** Every call of a program keeps [process_inv], and a constructor call
    leaves the engine started. *)
Lemma step_keeps_inv (E : Engine) (p : process) (c : api_call) :
  process_inv p ->
  process_inv (step E p c)
  /\ (is_construction c = true -> started (proc_world (step E p c))).
Proof.
  intros [(Hflag & Hcalls & Hobj) | Hst].
  - destruct c as [mem r d pm s | mem r d pm s i o a b | n i o a b | n]; simpl.
    + pose proof (cuTT_ctor_starts mem (proc_world p) r d pm s
                    (or_introl (conj Hflag Hcalls))) as H.
      destruct (cuTT_ctor mem (proc_world p) r d pm s) as [w' out].
      split; [right; exact H | intros _; exact H].
    + rewrite ?cuTT_ctor_measure_throws; simpl.
      pose proof (call_once_starts (proc_world p)
                    (or_introl (conj Hflag Hcalls))) as H.
      split; [right; exact H | intros _; exact H].
    + rewrite Hobj, nth_error_nil_none.
      split; [left; auto | discriminate].
    + rewrite Hobj, nth_error_nil_none.
      split; [left; auto | discriminate].
  - pose proof (step_keeps_started E p c Hst) as H.
    split; [right; exact H | intros _; exact H].
Qed.

Lemma run_keeps_inv (E : Engine) (cs : list api_call) :
  forall p : process,
    process_inv p ->
    process_inv (run E p cs)
    /\ (started (proc_world p) \/ existsb is_construction cs = true ->
        started (proc_world (run E p cs))).
Proof.
  unfold run.
  induction cs as [|c cs IH]; intros p Hinv; simpl.
  - split; [exact Hinv|]. intros [H | H]; [exact H | discriminate].
  - destruct (step_keeps_inv E p c Hinv) as (Hinv' & Hcons).
    destruct (IH _ Hinv') as (Hinv'' & Hrun).
    split; [exact Hinv''|].
    intros [Hst | Hex]; apply Hrun.
    + left. apply step_keeps_started. exact Hst.
    + apply orb_prop in Hex as [Hc | Hrest];
        [left; exact (Hcons Hc) | right; exact Hrest].
Qed.

Lemma initial_process_inv : process_inv initial_process.
Proof. left. repeat split. Qed.

(** C7: in any program that constructs at least one object, by either
    constructor and however many times, the engine receives [cuttInitialize]
    exactly once, and receives it before any [cuttPlan] or [cuttPlanMeasure]
    call: every planning call in the list of engine calls has the
    [cuttInitialize] call somewhere before it. *)
Theorem cuttInitialize_exactly_once :
  forall (E : Engine) (cs : list api_call),
    existsb is_construction cs = true ->
    count is_initialize (calls (proc_world (run E initial_process cs))) = 1%nat
    /\ forall (before after : list engine_call) (c : engine_call),
         calls (proc_world (run E initial_process cs)) = before ++ c :: after ->
         is_planning c = true ->
         In call_cuttInitialize before.
Proof.
  intros E cs Hcons.
  destruct (run_keeps_inv E cs initial_process initial_process_inv) as (_ & Hrun).
  destruct (Hrun (or_intror Hcons)) as (_ & rest & Hcalls & Hrest).
  rewrite Hcalls. split.
  - change (call_cuttInitialize :: rest) with ([call_cuttInitialize] ++ rest).
    rewrite count_app, Hrest. reflexivity.
  - intros before after c Hsplit Hplan.
    destruct before as [|b before]; simpl in Hsplit.
    + injection Hsplit as <- _. discriminate.
    + injection Hsplit as <- _. left. reflexivity.
Qed.

Lemma cuttInitialize_exactly_once_witness :
  count is_initialize
    (calls (proc_world
       (run (stub_engine (Some 7, CUTT_SUCCESS) CUTT_SUCCESS) initial_process
          [py_init sample_storage 3 [4; 6; 8] [2; 0; 1] None_;
           py_init_measure sample_storage 3 [4; 6; 8] [2; 0; 1] None_
             sample_in sample_out 0 0;
           py_execute 0 sample_in sample_out None_ None_;
           py_init sample_storage 2 [5; 7] [1; 0] None_;
           py_execute 2 sample_in sample_out None_ None_;
           py_del 1])))
  = 1%nat.
Proof.
  apply (cuttInitialize_exactly_once
           (stub_engine (Some 7, CUTT_SUCCESS) CUTT_SUCCESS)
           [py_init sample_storage 3 [4; 6; 8] [2; 0; 1] None_;
            py_init_measure sample_storage 3 [4; 6; 8] [2; 0; 1] None_
              sample_in sample_out 0 0;
            py_execute 0 sample_in sample_out None_ None_;
            py_init sample_storage 2 [5; 7] [1; 0] None_;
            py_execute 2 sample_in sample_out None_ None_;
            py_del 1]).
  reflexivity.
Defined.

(** * Further properties of the binding *)

(** ** The result printer *)

(** X1: the text [cuttErrorString] gives tells the result code: two codes with
    the same text are the same code, unless both are outside the enumeration
    and give the fallback text.  In particular only Success prints as
    "Success". *)
Theorem cuttErrorString_identifies_code :
  forall r r' : cuttResult,
    cuttErrorString r = cuttErrorString r' ->
    r = r' \/ (cuttErrorString r = "Unknown error"%string
               /\ cuttErrorString r' = "Unknown error"%string).
Proof.
  intros r r'. unfold cuttErrorString.
  destruct (Z.eqb_spec r CUTT_SUCCESS);
  [| destruct (Z.eqb_spec r CUTT_INVALID_PLAN);
  [| destruct (Z.eqb_spec r CUTT_INVALID_PARAMETER);
  [| destruct (Z.eqb_spec r CUTT_INVALID_DEVICE);
  [| destruct (Z.eqb_spec r CUTT_INTERNAL_ERROR);
  [| destruct (Z.eqb_spec r CUTT_UNDEFINED_ERROR)]]]]];
  (destruct (Z.eqb_spec r' CUTT_SUCCESS);
  [| destruct (Z.eqb_spec r' CUTT_INVALID_PLAN);
  [| destruct (Z.eqb_spec r' CUTT_INVALID_PARAMETER);
  [| destruct (Z.eqb_spec r' CUTT_INVALID_DEVICE);
  [| destruct (Z.eqb_spec r' CUTT_INTERNAL_ERROR);
  [| destruct (Z.eqb_spec r' CUTT_UNDEFINED_ERROR)]]]]]);
  intros H; try discriminate H; try (left; congruence); right; split; reflexivity.
Qed.

Lemma cuttErrorString_identifies_code_witness :
  6 = 9
  \/ (cuttErrorString 6 = "Unknown error"%string
      /\ cuttErrorString 9 = "Unknown error"%string).
Proof.
  apply (cuttErrorString_identifies_code 6 9). reflexivity.
Defined.

(** ** One [execute] call *)

(** X2: an [execute] call whose buffers fail validation (an argument that is
    not a [GPUArray], or two arrays of different dtype) throws
    [invalid_argument] and does nothing else: the list of engine calls is as
    before and so is the object, so an unplanned object stays unplanned and
    its one planning is not used up. *)
Theorem execute_invalid_pair_changes_nothing :
  forall (E : Engine) (self : cuTT) (w : world)
         (idata odata pyalpha pybeta : pyobject),
    valid_pair idata odata = false ->
    exists what,
      execute E self w idata odata pyalpha pybeta
      = (self, w, Throws (invalid_argument what)).
Proof.
  intros E self w idata odata pyalpha pybeta Hinvalid.
  unfold execute. unfold valid_pair in Hinvalid.
  destruct (py_isinstance idata pycuda_gpuarray_GPUArray); simpl in *;
    [| eexists; reflexivity].
  destruct (py_isinstance odata pycuda_gpuarray_GPUArray); simpl in *;
    [| eexists; reflexivity].
  rewrite Hinvalid. simpl. eexists; reflexivity.
Qed.

Lemma execute_invalid_pair_changes_nothing_witness :
  exists what,
    execute (stub_engine (Some 7, CUTT_SUCCESS) CUTT_SUCCESS)
            sample_unplanned initial_world sample_text sample_out None_ None_
    = (sample_unplanned, initial_world, Throws (invalid_argument what)).
Proof.
  apply (execute_invalid_pair_changes_nothing
           (stub_engine (Some 7, CUTT_SUCCESS) CUTT_SUCCESS)
           sample_unplanned initial_world sample_text sample_out None_ None_).
  reflexivity.
Defined.

Lemma count_record_call (f : engine_call -> bool) (w : world) (c : engine_call) :
  count f (calls (record_call w c))
  = (count f (calls w) + if f c then 1 else 0)%nat.
Proof.
  rewrite calls_record_call, count_app. unfold count. simpl.
  destruct (f c); reflexivity.
Qed.

Lemma converts_scalar_pointer (py : pyobject) :
  if converts py
  then scalar_pointer py = Returns (forwarded py)
  else scalar_pointer py = Throws cast_error.
Proof.
  unfold converts, scalar_pointer, forwarded.
  destruct (is_none py); simpl; [reflexivity|].
  destruct (cast_double py); reflexivity.
Qed.

(** Counting the calls of a list that ends in the calls just recorded. *)
Ltac tally_calls :=
  simpl; rewrite ?calls_record_call, ?count_app; unfold count; simpl; lia.

(** X3: when an [execute] call gets to the engine.  The call makes a
    [cuttExecute] call, and then exactly one, when and only when the buffer
    pair is valid, the planning status is Success (the stored one on a planned
    object, the one just obtained on an unplanned one) and both scalar
    arguments are [None] or cast to a [double]; in every other case it makes
    none. *)
Theorem execute_calls_engine_exactly_when :
  forall (E : Engine) (self : cuTT) (w : world)
         (idata odata pyalpha pybeta : pyobject),
    count is_execute
      (calls (snd (fst (execute E self w idata odata pyalpha pybeta))))
    = (count is_execute (calls w)
       + if valid_pair idata odata
            && Z.eqb (planning_status E self w idata) CUTT_SUCCESS
            && converts pyalpha && converts pybeta
         then 1 else 0)%nat.
Proof.
  intros E self w idata odata pyalpha pybeta.
  unfold execute, valid_pair, planning_status.
  destruct (py_isinstance idata pycuda_gpuarray_GPUArray); simpl; [|lia].
  destruct (py_isinstance odata pycuda_gpuarray_GPUArray); simpl; [|lia].
  destruct (dtype_is (attr_dtype idata) (attr_dtype odata)); simpl; [|lia].
  pose proof (converts_scalar_pointer pyalpha) as Ha.
  pose proof (converts_scalar_pointer pybeta) as Hb.
  destruct (planInitialized self); simpl.
  - destruct (initStatus self =? CUTT_SUCCESS); simpl; [|lia].
    destruct (converts pyalpha); rewrite Ha; simpl; [|lia].
    destruct (converts pybeta); rewrite Hb; simpl; [|lia].
    destruct (negb (_ =? CUTT_SUCCESS)); tally_calls.
  - destruct (cuttPlan E (calls w) (rank self) (dim self) (permutation self)
                (attr_itemsize idata) (stream self)) as [h status].
    cbn [initStatus plan snd].
    destruct (status =? CUTT_SUCCESS); simpl; [|tally_calls].
    destruct (converts pyalpha); rewrite Ha; simpl; [|tally_calls].
    destruct (converts pybeta); rewrite Hb; simpl; [|tally_calls].
    destruct (negb (_ =? CUTT_SUCCESS)); tally_calls.
Qed.

(** X4: [execute] returns normally only after the engine has run the
    transpose with success.  If the call returns, the buffer pair was valid,
    the object is planned with status Success, and the last engine call is
    the [cuttExecute] call on the object's handle with the two array pointers
    and the caller's coefficients, which the engine answered with Success. *)
Theorem execute_returns_only_after_engine_success :
  forall (E : Engine) (self : cuTT) (w : world)
         (idata odata pyalpha pybeta : pyobject) (self' : cuTT) (w' : world),
    execute E self w idata odata pyalpha pybeta = (self', w', Returns tt) ->
    valid_pair idata odata = true
    /\ planInitialized self' = true
    /\ initStatus self' = CUTT_SUCCESS
    /\ exists before,
         calls w' = before ++ [call_cuttExecute (plan self') (attr_ptr idata)
                                 (attr_ptr odata) (forwarded pyalpha)
                                 (forwarded pybeta)]
         /\ cuttExecute E before (plan self') (attr_ptr idata) (attr_ptr odata)
                        (forwarded pyalpha) (forwarded pybeta) = CUTT_SUCCESS.
Proof.
  intros E self w idata odata pyalpha pybeta self' w' Hex.
  unfold execute in Hex. unfold valid_pair.
  destruct (py_isinstance idata pycuda_gpuarray_GPUArray); simpl in *;
    [| discriminate].
  destruct (py_isinstance odata pycuda_gpuarray_GPUArray); simpl in *;
    [| discriminate].
  destruct (dtype_is (attr_dtype idata) (attr_dtype odata)); simpl in *;
    [| discriminate].
  split; [reflexivity|].
  destruct (planInitialized self) eqn:Hinit; simpl in Hex.
  - destruct (initStatus self =? CUTT_SUCCESS) eqn:Hst; simpl in Hex;
      [| discriminate].
    destruct (scalar_pointer pyalpha) as [alpha|] eqn:Ha; [| discriminate].
    destruct (scalar_pointer pybeta) as [beta|] eqn:Hb; [| discriminate].
    apply scalar_pointer_forwarded in Ha, Hb. subst alpha beta.
    destruct (cuttExecute E (calls w) (plan self) (attr_ptr idata)
                (attr_ptr odata) (forwarded pyalpha) (forwarded pybeta)
              =? CUTT_SUCCESS) eqn:Hrun; simpl in Hex; [| discriminate].
    injection Hex as <- <-.
    apply Z.eqb_eq in Hst, Hrun.
    split; [exact Hinit|]. split; [exact Hst|].
    exists (calls w). split; [reflexivity | exact Hrun].
  - destruct (cuttPlan E (calls w) (rank self) (dim self) (permutation self)
                (attr_itemsize idata) (stream self)) as [h status].
    cbn [initStatus plan] in Hex.
    destruct (status =? CUTT_SUCCESS) eqn:Hst; simpl in Hex; [| discriminate].
    destruct (scalar_pointer pyalpha) as [alpha|] eqn:Ha; [| discriminate].
    destruct (scalar_pointer pybeta) as [beta|] eqn:Hb; [| discriminate].
    apply scalar_pointer_forwarded in Ha, Hb. subst alpha beta.
    match type of Hex with
    | context [cuttExecute E ?l ?p ?i ?o ?a ?b =? CUTT_SUCCESS] =>
      destruct (cuttExecute E l p i o a b =? CUTT_SUCCESS) eqn:Hrun
    end; simpl in Hex; [| discriminate].
    injection Hex as <- <-.
    apply Z.eqb_eq in Hst, Hrun.
    split; [reflexivity|]. split; [exact Hst|].
    eexists. split; [reflexivity | exact Hrun].
Qed.

Lemma execute_returns_only_after_engine_success_witness :
  exists before,
    [call_cuttPlan 3 [4; 6; 8] [2; 0; 1] 4 0;
     call_cuttExecute 7 4096 8192 (Some 2%float) None]
    = before ++ [call_cuttExecute 7 4096 8192 (Some 2%float) None]
    /\ cuttExecute (stub_engine (Some 7, CUTT_SUCCESS) CUTT_SUCCESS)
         before 7 4096 8192 (Some 2%float) None = CUTT_SUCCESS.
Proof.
  destruct (execute_returns_only_after_engine_success
              (stub_engine (Some 7, CUTT_SUCCESS) CUTT_SUCCESS)
              sample_unplanned initial_world sample_in sample_out
              (sample_float 2%float "2.0") None_ _ _ eq_refl)
    as (_ & _ & _ & Hlast).
  exact Hlast.
Defined.

(** X5: [execute] never touches the request.  Over any run of [execute]
    calls on an object, whatever the buffers and however the calls end, the
    rank, the dimensions, the permutation and the stream of the object stay
    what they were, and an object that was planned stays planned. *)
Theorem execute_all_keeps_request :
  forall (E : Engine) (rest : list exec_args) (self : cuTT) (w : world),
    rank (fst (execute_all E self w rest)) = rank self
    /\ dim (fst (execute_all E self w rest)) = dim self
    /\ permutation (fst (execute_all E self w rest)) = permutation self
    /\ stream (fst (execute_all E self w rest)) = stream self
    /\ implb (planInitialized self)
             (planInitialized (fst (execute_all E self w rest))) = true.
Proof.
  intros E rest. induction rest as [|a rest IH]; intros self w; simpl.
  - repeat split. destruct (planInitialized self); reflexivity.
  - destruct (execute E self w (arg_idata a) (arg_odata a) (arg_pyalpha a)
                (arg_pybeta a)) as [[self1 w1] r1] eqn:Hex.
    destruct (IH self1 w1) as (Hr & Hd & Hp & Hs & Hi).
    assert (Hstep : rank self1 = rank self /\ dim self1 = dim self
                    /\ permutation self1 = permutation self
                    /\ stream self1 = stream self
                    /\ implb (planInitialized self) (planInitialized self1) = true).
    { clear IH Hr Hd Hp Hs Hi. unfold execute in Hex.
      destruct (negb (py_isinstance (arg_idata a) pycuda_gpuarray_GPUArray));
        [injection Hex as <- _ _; repeat split; apply implb_same|].
      destruct (negb (py_isinstance (arg_odata a) pycuda_gpuarray_GPUArray));
        [injection Hex as <- _ _; repeat split; apply implb_same|].
      destruct (negb (dtype_is _ _));
        [injection Hex as <- _ _; repeat split; apply implb_same|].
      destruct (planInitialized self) eqn:Hinit; simpl in Hex.
      - destruct (negb (initStatus self =? CUTT_SUCCESS));
          [injection Hex as <- _ _; repeat split; exact Hinit|].
        destruct (scalar_pointer (arg_pyalpha a));
          [| injection Hex as <- _ _; repeat split; exact Hinit].
        destruct (scalar_pointer (arg_pybeta a));
          [| injection Hex as <- _ _; repeat split; exact Hinit].
        destruct (negb (_ =? CUTT_SUCCESS)); injection Hex as <- _ _;
          repeat split; exact Hinit.
      - destruct (cuttPlan E (calls w) (rank self) (dim self) (permutation self)
                    (attr_itemsize (arg_idata a)) (stream self)) as [h status].
        cbn [initStatus plan] in Hex.
        destruct (negb (status =? CUTT_SUCCESS));
          [injection Hex as <- _ _; repeat split|].
        destruct (scalar_pointer (arg_pyalpha a));
          [| injection Hex as <- _ _; repeat split].
        destruct (scalar_pointer (arg_pybeta a));
          [| injection Hex as <- _ _; repeat split].
        destruct (negb (_ =? CUTT_SUCCESS)); injection Hex as <- _ _;
          repeat split. }
    destruct Hstep as (Hr1 & Hd1 & Hp1 & Hs1 & Hi1).
    repeat split; try congruence.
    destruct (planInitialized self); [| reflexivity].
    simpl in Hi1. rewrite Hi1 in Hi. exact Hi.
Qed.

(** X6: a scalar that does not convert.  When the buffer pair is valid, the
    planning status is Success and the first scalar argument is neither
    [None] nor castable to a [double], [execute] throws the cast error, not
    [invalid_argument]; the engine gets no [cuttExecute] call, and the second
    scalar plays no role.  A first call on an unplanned object has planned by
    then all the same: the object is left planned. *)
Theorem execute_with_unconvertible_alpha :
  forall (E : Engine) (self : cuTT) (w : world)
         (idata odata pyalpha pybeta : pyobject),
    valid_pair idata odata = true ->
    planning_status E self w idata = CUTT_SUCCESS ->
    converts pyalpha = false ->
    snd (execute E self w idata odata pyalpha pybeta) = Throws cast_error
    /\ planInitialized (fst (fst (execute E self w idata odata pyalpha pybeta)))
       = true
    /\ count is_execute
         (calls (snd (fst (execute E self w idata odata pyalpha pybeta))))
       = count is_execute (calls w)
    /\ count is_planning
         (calls (snd (fst (execute E self w idata odata pyalpha pybeta))))
       = (count is_planning (calls w)
          + if planInitialized self then 0 else 1)%nat.
Proof.
  intros E self w idata odata pyalpha pybeta Hvalid Hstatus Halpha.
  apply valid_pair_true in Hvalid as (Hi & Ho & Hd).
  pose proof (converts_scalar_pointer pyalpha) as Ha. rewrite Halpha in Ha.
  unfold planning_status in Hstatus.
  unfold execute. rewrite Hi, Ho, Hd. simpl.
  destruct (planInitialized self) eqn:Hinit; simpl.
  - rewrite Hstatus, Ha. simpl. repeat split; [exact Hinit | lia].
  - destruct (cuttPlan E (calls w) (rank self) (dim self) (permutation self)
                (attr_itemsize idata) (stream self)) as [h status].
    simpl in Hstatus. subst status. cbn [initStatus plan].
    rewrite Ha. simpl. repeat split; tally_calls.
Qed.

Lemma execute_with_unconvertible_alpha_witness :
  snd (execute (stub_engine (Some 7, CUTT_SUCCESS) CUTT_SUCCESS)
         sample_unplanned initial_world sample_in sample_out
         sample_text (sample_float 0.5%float "0.5"))
  = Throws cast_error
  /\ planInitialized
       (fst (fst (execute (stub_engine (Some 7, CUTT_SUCCESS) CUTT_SUCCESS)
                    sample_unplanned initial_world sample_in sample_out
                    sample_text (sample_float 0.5%float "0.5"))))
     = true.
Proof.
  destruct (execute_with_unconvertible_alpha
              (stub_engine (Some 7, CUTT_SUCCESS) CUTT_SUCCESS)
              sample_unplanned initial_world sample_in sample_out
              sample_text (sample_float 0.5%float "0.5")
              eq_refl eq_refl eq_refl) as (Hthrow & Hplanned & _).
  split; [exact Hthrow | exact Hplanned].
Defined.

(** X7: once an object is planned, the element size of the buffers has no
    influence on [execute].  For an input array whose [itemsize] is a size
    (a number [cast<size_t>] accepts, as it is read at every call), the same
    call with the input reporting any other such size, and the output
    reporting anything at all, ends the same way, with the same engine calls
    and the same object: the output's [itemsize] is never read, and the size
    the plan was made for is neither stored nor compared. *)
Theorem execute_on_planned_ignores_itemsize :
  forall (E : Engine) (self : cuTT) (w : world)
         (idata odata pyalpha pybeta : pyobject) (n m : Z),
    planInitialized self = true ->
    0 <= attr_itemsize idata < 2 ^ 64 ->
    0 <= n < 2 ^ 64 ->
    execute E self w (with_itemsize idata n) (with_itemsize odata m)
            pyalpha pybeta
    = execute E self w idata odata pyalpha pybeta.
Proof.
  intros E self w idata odata pyalpha pybeta n m Hinit _ _.
  unfold execute. rewrite Hinit. reflexivity.
Qed.

Lemma execute_on_planned_ignores_itemsize_witness :
  execute (stub_engine (Some 7, CUTT_SUCCESS) CUTT_SUCCESS)
          sample_planned initial_world
          (with_itemsize sample_in 8) (with_itemsize sample_out 2) None_ None_
  = execute (stub_engine (Some 7, CUTT_SUCCESS) CUTT_SUCCESS)
            sample_planned initial_world sample_in sample_out None_ None_.
Proof.
  apply (execute_on_planned_ignores_itemsize
           (stub_engine (Some 7, CUTT_SUCCESS) CUTT_SUCCESS)
           sample_planned initial_world sample_in sample_out None_ None_ 8 2).
  - reflexivity.
  - simpl. lia.
  - lia.
Defined.

(** ** Construction followed by execution *)

Lemma stream_of_handle (stream_ : pyobject) (stream' : cudaStream_t) :
  stream_of stream_ = Returns stream' -> stream' = stream_handle stream_.
Proof.
  unfold stream_of, stream_handle.
  destruct (is_none stream_); [intros H; injection H as <-; reflexivity|].
  destruct (negb (py_isinstance stream_ pycuda_driver_Stream));
    [discriminate | intros H; injection H as <-; reflexivity].
Qed.

(** X8: what the engine is asked to plan.  For an object built by the
    deferring constructor, the first [execute] call with a valid buffer pair,
    in whatever world it is made, asks the engine for [cuttPlan] with exactly
    the rank, dimensions and permutation given at construction, the
    [itemsize] of that call's input array, and the stream of the
    constructor's stream argument (0 for [None], its [handle_int] otherwise). *)
Theorem deferred_plan_carries_the_request :
  forall (E : Engine) (mem : storage) (w0 w0' w : world) (rank_ : Z)
         (dim_ permutation_ : list Z) (stream_ : pyobject) (self : cuTT)
         (idata odata pyalpha pybeta : pyobject),
    cuTT_ctor mem w0 rank_ dim_ permutation_ stream_ = (w0', Returns self) ->
    valid_pair idata odata = true ->
    exists later,
      calls (snd (fst (execute E self w idata odata pyalpha pybeta)))
      = calls w ++ call_cuttPlan rank_ dim_ permutation_ (attr_itemsize idata)
                     (stream_handle stream_) :: later.
Proof.
  intros E mem w0 w0' w rank_ dim_ permutation_ stream_ self
         idata odata pyalpha pybeta Hctor Hvalid.
  unfold cuTT_ctor in Hctor.
  destruct (stream_of stream_) as [stream'|e] eqn:Hs; [| discriminate].
  apply stream_of_handle in Hs. subst stream'.
  injection Hctor as _ <-.
  destruct (execute E _ w idata odata pyalpha pybeta) as [[self' w'] r] eqn:Hex.
  pose proof (execute_valid_marks_planned _ _ _ _ _ _ _ _ _ _ Hvalid Hex)
    as Hplanned.
  destruct (execute_shape _ _ _ _ _ _ _ _ _ _ Hex) as (_ & new & Hnew & Hcase).
  cbn [planInitialized rank dim permutation stream] in Hcase.
  destruct Hcase as [(-> & _) | (_ & [-> | ->])].
  - discriminate Hplanned.
  - exists []. exact Hnew.
  - eexists. exact Hnew.
Qed.

Lemma deferred_plan_carries_the_request_witness :
  exists later,
    calls (snd (fst (execute (stub_engine (Some 7, CUTT_SUCCESS) CUTT_SUCCESS)
      {| plan := mem_plan sample_storage;
         initStatus := mem_initStatus sample_storage;
         planInitialized := false;
         rank := 2; dim := [5; 7]; permutation := [1; 0]; stream := 99 |}
      initial_world sample_in sample_out None_ None_)))
    = calls initial_world ++ call_cuttPlan 2 [5; 7] [1; 0] 4 99 :: later.
Proof.
  apply (deferred_plan_carries_the_request
           (stub_engine (Some 7, CUTT_SUCCESS) CUTT_SUCCESS)
           sample_storage initial_world (call_once initial_world) initial_world
           2 [5; 7] [1; 0] (sample_stream 99) _
           sample_in sample_out None_ None_ eq_refl eq_refl).
Defined.

(** ** Whole programs *)

Lemma count_single (f : engine_call -> bool) (c : engine_call) :
  count f [c] = if f c then 1%nat else 0%nat.
Proof. unfold count. simpl. destruct (f c); reflexivity. Qed.

Lemma call_once_count (f : engine_call -> bool) (w : world) :
  f call_cuttInitialize = false ->
  count f (calls (call_once w)) = count f (calls w).
Proof.
  intros Hf. unfold call_once. destruct (cuttInitialized w); [reflexivity|].
  simpl. rewrite count_app. unfold count. simpl. rewrite Hf. simpl. lia.
Qed.

Lemma tally_app (f : option cuTT -> bool) (l : list (option cuTT))
    (x : option cuTT) :
  tally f (l ++ [x]) = (tally f l + if f x then 1 else 0)%nat.
Proof.
  unfold tally. rewrite filter_app, length_app. simpl.
  destruct (f x); reflexivity.
Qed.

Lemma tally_replace_nth (f : option cuTT -> bool) (l : list (option cuTT)) :
  forall (n : nat) (x y : option cuTT),
    nth_error l n = Some x ->
    (tally f (replace_nth n y l) + (if f x then 1 else 0)
     = tally f l + (if f y then 1 else 0))%nat.
Proof.
  unfold tally.
  induction l as [|z l IH]; intros n x y Hnth.
  - destruct n; discriminate.
  - destruct n as [|n]; simpl in *.
    + injection Hnth as ->. destruct (f x), (f y); simpl; lia.
    + specialize (IH n x y Hnth). destruct (f z); simpl; lia.
Qed.

Lemma cuTT_ctor_effect (mem : storage) (w : world) (rank_ : Z)
    (dim_ permutation_ : list Z) (stream_ : pyobject) :
  fst (cuTT_ctor mem w rank_ dim_ permutation_ stream_) = call_once w
  /\ forall self,
       snd (cuTT_ctor mem w rank_ dim_ permutation_ stream_) = Returns self ->
       planInitialized self = false.
Proof.
  unfold cuTT_ctor. destruct (stream_of stream_); simpl.
  - split; [reflexivity|]. intros self H. injection H as <-. reflexivity.
  - split; [reflexivity|]. intros self H. discriminate.
Qed.

(** What one [execute] call adds to the counts of planning and of destroying
    calls: it never destroys, and it plans exactly when it turns an unplanned
    object into a planned one. *)
Lemma execute_counts (E : Engine) (self : cuTT) (w : world)
    (idata odata pyalpha pybeta : pyobject) (self' : cuTT) (w' : world)
    (r : outcome unit) :
  execute E self w idata odata pyalpha pybeta = (self', w', r) ->
  count is_destroy (calls w') = count is_destroy (calls w)
  /\ (count is_planning (calls w') + (if is_unplanned (Some self') then 1 else 0)
      = count is_planning (calls w) + (if is_unplanned (Some self) then 1 else 0))%nat.
Proof.
  intros Hex.
  destruct (execute_shape _ _ _ _ _ _ _ _ _ _ Hex) as (_ & new & Hnew & Hcase).
  rewrite Hnew, !count_app. simpl.
  destruct (planInitialized self) eqn:Hinit.
  - destruct Hcase as (-> & [-> | ->]); rewrite Hinit;
      unfold count; simpl; lia.
  - destruct Hcase as [(-> & ->) | (Hp & [-> | ->])];
      [rewrite Hinit | rewrite Hp | rewrite Hp]; unfold count; simpl; lia.
Qed.

(** Planning calls and unplanned objects together grow by at most one per
    constructor call, and by nothing otherwise. *)
Lemma step_planning (E : Engine) (p : process) (c : api_call) :
  (count is_planning (calls (proc_world (step E p c)))
   + tally is_unplanned (objects (step E p c))
   <= count is_planning (calls (proc_world p)) + tally is_unplanned (objects p)
      + if is_construction c then 1 else 0)%nat.
Proof.
  destruct c as [mem r d pm s | mem r d pm s i o a b | n i o a b | n]; simpl.
  - destruct (cuTT_ctor_effect mem (proc_world p) r d pm s) as (Hw & Hself).
    destruct (cuTT_ctor mem (proc_world p) r d pm s) as [w' out].
    simpl in *. subst w'. rewrite call_once_count by reflexivity.
    destruct out as [self|e]; [| lia].
    rewrite tally_app. simpl. rewrite (Hself self eq_refl). simpl. lia.
  - rewrite ?cuTT_ctor_measure_throws; simpl.
    rewrite call_once_count by reflexivity. lia.
  - destruct (nth_error (objects p) n) as [[self|]|] eqn:Hnth; try lia.
    destruct (execute E self (proc_world p) i o a b) as [[self' w'] out] eqn:Hex.
    simpl. destruct (execute_counts _ _ _ _ _ _ _ _ _ _ Hex) as (_ & Hplan).
    pose proof (tally_replace_nth is_unplanned (objects p) n (Some self)
                  (Some self') Hnth) as Hrep.
    lia.
  - destruct (nth_error (objects p) n) as [[self|]|] eqn:Hnth; try lia.
    simpl. rewrite count_app, count_single. simpl.
    pose proof (tally_replace_nth is_unplanned (objects p) n (Some self)
                  None Hnth) as Hrep.
    simpl in Hrep. destruct (negb (planInitialized self)); lia.
Qed.

Lemma run_planning (E : Engine) (cs : list api_call) :
  forall p : process,
    (count is_planning (calls (proc_world (run E p cs)))
     + tally is_unplanned (objects (run E p cs))
     <= count is_planning (calls (proc_world p)) + tally is_unplanned (objects p)
        + List.length (filter is_construction cs))%nat.
Proof.
  unfold run. induction cs as [|c cs IH]; intros p; simpl; [lia|].
  specialize (IH (step E p c)). pose proof (step_planning E p c) as Hstep.
  destruct (is_construction c); simpl; lia.
Qed.

(** X11: an object is planned at most once in its life.  In any program the
    number of planning calls the engine receives, [cuttPlan] and
    [cuttPlanMeasure] together, is at most the number of constructor calls
    the program makes, however many [execute] calls there are and however
    they end. *)
Theorem planning_calls_at_most_constructions :
  forall (E : Engine) (cs : list api_call),
    (count is_planning (calls (proc_world (run E initial_process cs)))
     <= List.length (filter is_construction cs))%nat.
Proof.
  intros E cs. pose proof (run_planning E cs initial_process) as H.
  replace (count is_planning (calls (proc_world initial_process)))
    with 0%nat in H by reflexivity.
  replace (tally is_unplanned (objects initial_process))
    with 0%nat in H by reflexivity.
  lia.
Qed.

(** Destroying calls and dropped objects grow together. *)
Lemma step_destroy (E : Engine) (p : process) (c : api_call) :
  (count is_destroy (calls (proc_world (step E p c))) + tally is_dropped (objects p)
   = count is_destroy (calls (proc_world p))
     + tally is_dropped (objects (step E p c)))%nat.
Proof.
  destruct c as [mem r d pm s | mem r d pm s i o a b | n i o a b | n]; simpl.
  - destruct (cuTT_ctor_effect mem (proc_world p) r d pm s) as (Hw & _).
    destruct (cuTT_ctor mem (proc_world p) r d pm s) as [w' out].
    simpl in *. subst w'. rewrite call_once_count by reflexivity.
    destruct out as [self|e]; [| lia].
    rewrite tally_app. simpl. lia.
  - rewrite ?cuTT_ctor_measure_throws; simpl.
    rewrite call_once_count by reflexivity. lia.
  - destruct (nth_error (objects p) n) as [[self|]|] eqn:Hnth; try lia.
    destruct (execute E self (proc_world p) i o a b) as [[self' w'] out] eqn:Hex.
    simpl. destruct (execute_counts _ _ _ _ _ _ _ _ _ _ Hex) as (Hd & _).
    pose proof (tally_replace_nth is_dropped (objects p) n (Some self)
                  (Some self') Hnth) as Hrep.
    simpl in Hrep. lia.
  - destruct (nth_error (objects p) n) as [[self|]|] eqn:Hnth; try lia.
    simpl. rewrite count_app, count_single. simpl.
    pose proof (tally_replace_nth is_dropped (objects p) n (Some self)
                  None Hnth) as Hrep.
    simpl in Hrep. lia.
Qed.

(** X12: the engine is asked to destroy a plan once for each object that is
    dropped and at no other time.  In any program the number of [cuttDestroy]
    calls equals the number of objects dropped so far: neither constructor
    and no [execute] call destroys a plan, whether they succeed or throw, and
    no object is destroyed twice. *)
Theorem destroy_calls_are_the_dropped_objects :
  forall (E : Engine) (cs : list api_call),
    count is_destroy (calls (proc_world (run E initial_process cs)))
    = tally is_dropped (objects (run E initial_process cs)).
Proof.
  intros E cs.
  assert (H : forall p,
             (count is_destroy (calls (proc_world (run E p cs)))
              + tally is_dropped (objects p)
              = count is_destroy (calls (proc_world p))
                + tally is_dropped (objects (run E p cs)))%nat).
  { unfold run. induction cs as [|c cs IH]; intros p; simpl; [lia|].
    specialize (IH (step E p c)). pose proof (step_destroy E p c). lia. }
  specialize (H initial_process).
  replace (count is_destroy (calls (proc_world initial_process)))
    with 0%nat in H by reflexivity.
  replace (tally is_dropped (objects initial_process))
    with 0%nat in H by reflexivity.
  lia.
Qed.

Lemma planned_before_executed_app (l new : list engine_call) :
  forall seen : bool,
    planned_before_executed seen (l ++ new)
    = planned_before_executed seen l
      && planned_before_executed (seen || existsb is_planning l) new.
Proof.
  induction l as [|c l IH]; intros seen; simpl.
  - rewrite orb_false_r. reflexivity.
  - destruct c; simpl; rewrite IH; simpl;
      rewrite ?orb_false_r, ?orb_true_r, ?andb_assoc; reflexivity.
Qed.

Lemma call_once_calls (w : world) :
  exists new,
    calls (call_once w) = calls w ++ new
    /\ (new = [] \/ new = [call_cuttInitialize]).
Proof.
  unfold call_once. destruct (cuttInitialized w).
  - exists []. rewrite app_nil_r. auto.
  - exists [call_cuttInitialize]. auto.
Qed.

Lemma accounted_extend (w w' : world) (new : list engine_call)
    (o : option cuTT) :
  calls w' = calls w ++ new -> accounted w o -> accounted w' o.
Proof.
  intros Hnew. destruct o as [self|]; simpl; [| trivial].
  intros H Hp. rewrite Hnew, existsb_app, (H Hp). reflexivity.
Qed.

Lemma Forall_replace_nth {A : Type} (P : A -> Prop) (y : A) (l : list A) :
  forall n : nat, Forall P l -> P y -> Forall P (replace_nth n y l).
Proof.
  induction l as [|x l IH]; intros n Hl Hy; destruct n; simpl;
    try constructor; inversion Hl; subst; auto.
Qed.

Lemma Forall_nth_error {A : Type} (P : A -> Prop) (l : list A) (n : nat) (x : A) :
  Forall P l -> nth_error l n = Some x -> P x.
Proof.
  intros Hl Hnth. rewrite Forall_forall in Hl.
  apply Hl. eapply nth_error_In. exact Hnth.
Qed.

(** Every call of a program keeps the order of the engine calls, and keeps
    every planned object accounted for. *)
Lemma step_keeps_order (E : Engine) (p : process) (c : api_call) :
  planned_before_executed false (calls (proc_world p)) = true ->
  Forall (accounted (proc_world p)) (objects p) ->
  planned_before_executed false (calls (proc_world (step E p c))) = true
  /\ Forall (accounted (proc_world (step E p c))) (objects (step E p c)).
Proof.
  intros Hord Hacc.
  destruct c as [mem r d pm s | mem r d pm s i o a b | n i o a b | n]; simpl.
  - destruct (cuTT_ctor_effect mem (proc_world p) r d pm s) as (Hw & Hself).
    destruct (cuTT_ctor mem (proc_world p) r d pm s) as [w' out].
    simpl in *. subst w'.
    destruct (call_once_calls (proc_world p)) as (new & Hnew & Hshape).
    assert (Hacc' : Forall (accounted (call_once (proc_world p))) (objects p)).
    { eapply Forall_impl; [| exact Hacc].
      intros o. apply (accounted_extend _ _ _ _ Hnew). }
    split.
    + rewrite Hnew, planned_before_executed_app, Hord.
      destruct Hshape as [-> | ->]; reflexivity.
    + destruct out as [self|e]; [| exact Hacc'].
      apply Forall_app. split; [exact Hacc'|].
      constructor; [| constructor]. simpl.
      rewrite (Hself self eq_refl). discriminate.
  - rewrite ?cuTT_ctor_measure_throws; simpl.
    destruct (call_once_calls (proc_world p)) as (new & Hnew & Hshape).
    split.
    + rewrite Hnew, planned_before_executed_app, Hord.
      destruct Hshape as [-> | ->]; reflexivity.
    + eapply Forall_impl; [| exact Hacc].
      intros o'. apply (accounted_extend _ _ _ _ Hnew).
  - destruct (nth_error (objects p) n) as [[self|]|] eqn:Hnth;
      try (split; assumption).
    destruct (execute E self (proc_world p) i o a b) as [[self' w'] out] eqn:Hex.
    simpl.
    destruct (execute_shape _ _ _ _ _ _ _ _ _ _ Hex) as (_ & new & Hnew & Hcase).
    pose proof (Forall_nth_error _ _ _ _ Hacc Hnth) as Hself. simpl in Hself.
    assert (Hacc' : Forall (accounted w') (objects p)).
    { eapply Forall_impl; [| exact Hacc].
      intros o'. apply (accounted_extend _ _ _ _ Hnew). }
    destruct (planInitialized self) eqn:Hinit.
    + destruct Hcase as (-> & Hshape). split.
      * rewrite Hnew, planned_before_executed_app, Hord, (Hself eq_refl).
        destruct Hshape as [-> | ->]; reflexivity.
      * apply Forall_replace_nth; [exact Hacc'|].
        apply (accounted_extend _ _ _ _ Hnew).
           exact (Forall_nth_error _ _ _ _ Hacc Hnth).
    + destruct Hcase as [(-> & ->) | (_ & Hshape)].
      * split.
        -- rewrite Hnew, app_nil_r. exact Hord.
        -- apply Forall_replace_nth; [exact Hacc'|].
           apply (accounted_extend _ _ _ _ Hnew).
           exact (Forall_nth_error _ _ _ _ Hacc Hnth).
      * split.
        -- rewrite Hnew, planned_before_executed_app, Hord.
           destruct Hshape as [-> | ->]; simpl;
             rewrite ?orb_true_r; reflexivity.
        -- apply Forall_replace_nth; [exact Hacc'|].
           simpl. intros _. rewrite Hnew, existsb_app.
           destruct Hshape as [-> | ->]; simpl; apply orb_true_r.
  - destruct (nth_error (objects p) n) as [[self|]|] eqn:Hnth;
      try (split; assumption).
    simpl. split.
    + rewrite planned_before_executed_app, Hord. reflexivity.
    + apply Forall_replace_nth; [| exact I].
      eapply Forall_impl; [| exact Hacc].
      intros o'. apply (accounted_extend _ (cuTT_dtor self (proc_world p))
                          [call_cuttDestroy (plan self)] _ eq_refl).
Qed.

Lemma run_keeps_order (E : Engine) (cs : list api_call) :
  forall p : process,
    planned_before_executed false (calls (proc_world p)) = true ->
    Forall (accounted (proc_world p)) (objects p) ->
    planned_before_executed false (calls (proc_world (run E p cs))) = true.
Proof.
  unfold run. induction cs as [|c cs IH]; intros p Hord Hacc; simpl.
  - exact Hord.
  - destruct (step_keeps_order E p c Hord Hacc) as (Hord' & Hacc').
    exact (IH _ Hord' Hacc').
Qed.

(** X13: the engine is never asked to run a transpose before it was asked to
    plan one.  In the list of engine calls of any program, every
    [cuttExecute] call has a [cuttPlan] or [cuttPlanMeasure] call somewhere
    before it. *)
Theorem no_execute_before_planning :
  forall (E : Engine) (cs : list api_call)
         (before after : list engine_call) (c : engine_call),
    calls (proc_world (run E initial_process cs)) = before ++ c :: after ->
    is_execute c = true ->
    existsb is_planning before = true.
Proof.
  intros E cs before after c Hsplit Hc.
  pose proof (run_keeps_order E cs initial_process eq_refl (Forall_nil _)) as H.
  rewrite Hsplit, planned_before_executed_app in H.
  apply andb_prop in H as (_ & H). simpl in H. rewrite Hc in H.
  apply andb_prop in H as (H & _). exact H.
Qed.

Lemma no_execute_before_planning_witness :
  existsb is_planning
    [call_cuttInitialize; call_cuttPlan 3 [4; 6; 8] [2; 0; 1] 4 0] = true.
Proof.
  apply (no_execute_before_planning
           (stub_engine (Some 7, CUTT_SUCCESS) CUTT_SUCCESS)
           [py_init sample_storage 3 [4; 6; 8] [2; 0; 1] None_;
            py_execute 0 sample_in sample_out None_ None_]
           [call_cuttInitialize; call_cuttPlan 3 [4; 6; 8] [2; 0; 1] 4 0]
           []
           (call_cuttExecute 7 4096 8192 None None));
    reflexivity.
Defined.

Lemma step_never_measures (E : Engine) (p : process) (c : api_call) :
  count is_plan_measure (calls (proc_world (step E p c)))
  = count is_plan_measure (calls (proc_world p)).
Proof.
  destruct c as [mem r d pm s | mem r d pm s i o a b | n i o a b | n]; simpl.
  - destruct (cuTT_ctor_effect mem (proc_world p) r d pm s) as (Hw & _).
    destruct (cuTT_ctor mem (proc_world p) r d pm s) as [w' out].
    simpl in *. subst w'. apply call_once_count. reflexivity.
  - rewrite ?cuTT_ctor_measure_throws; simpl.
    apply call_once_count. reflexivity.
  - destruct (nth_error (objects p) n) as [[self|]|]; try reflexivity.
    destruct (execute E self (proc_world p) i o a b) as [[self' w'] out] eqn:Hex.
    simpl.
    destruct (execute_shape _ _ _ _ _ _ _ _ _ _ Hex) as (_ & new & Hnew & Hcase).
    rewrite Hnew, count_app.
    assert (Hnone : count is_plan_measure new = 0%nat).
    { destruct (planInitialized self).
      - destruct Hcase as (_ & [-> | ->]); reflexivity.
      - destruct Hcase as [(_ & ->) | (_ & [-> | ->])]; reflexivity. }
    lia.
  - destruct (nth_error (objects p) n) as [[self|]|]; try reflexivity.
    simpl. rewrite count_app, count_single. simpl. lia.
Qed.

(** X9: measured planning is out of reach.  In any program, whatever it
    constructs and executes and whatever it passes to the measuring
    constructor, the engine never receives a [cuttPlanMeasure] call: every
    plan the engine is asked for is a [cuttPlan] made by [execute]. *)
Theorem no_program_reaches_cuttPlanMeasure :
  forall (E : Engine) (cs : list api_call),
    count is_plan_measure (calls (proc_world (run E initial_process cs))) = 0%nat
    /\ count is_plan (calls (proc_world (run E initial_process cs)))
       = count is_planning (calls (proc_world (run E initial_process cs))).
Proof.
  intros E cs.
  assert (Hm : forall p,
             count is_plan_measure (calls (proc_world (run E p cs)))
             = count is_plan_measure (calls (proc_world p))).
  { unfold run. induction cs as [|c cs IH]; intros p; simpl; [reflexivity|].
    rewrite IH. apply step_never_measures. }
  specialize (Hm initial_process).
  replace (count is_plan_measure (calls (proc_world initial_process)))
    with 0%nat in Hm by reflexivity.
  split; [exact Hm|].
  revert Hm. generalize (calls (proc_world (run E initial_process cs))).
  intros l. unfold count.
  induction l as [|c l IH]; simpl; [reflexivity|].
  destruct c; simpl; intros H; try (apply IH; exact H);
    try (f_equal; apply IH; exact H); discriminate H.
Qed.
